(** * Land-register extract service: the template catalogue and the print pipeline

    A shallow embedding of [server.py]: the [get] handler of
    [LandRegisterTemplates] and the [post] handler of [LandRegisterExtract].

    Python values are modelled as follows.
    - [str] is [string], the text in UTF-8. The builtins [str.upper] and
      [str.lower] are taken from the environment ([upper], [lower] of
      [Externals]); of them only this is used: on ASCII text they are the
      ASCII case mappings, and [upper] produces no ASCII lower-case letter.
    - [dict] is an insertion-ordered association list: setting an existing key
      replaces its value in place, setting a new key appends it. The values of
      [params] are [str] until the row of the database is stored in it; from
      there on they are [value]s.
    - [float] is a binary64 primitive float.
    - an exception is a constructor of [exn]; a computation returns a [res]
      together with the state it leaves behind, so what was done before a
      [raise] stays done. *)

From Stdlib Require Import String Ascii List ZArith Bool Lia.
From Stdlib Require Import Floats.
From Stdlib Require Uint63.
Import ListNotations.
Local Open Scope string_scope.
Local Open Scope list_scope.

Set Implicit Arguments.
Set Warnings "-register-all".

(** ** Strings *)

Module Str.

Definition is_lower (c : ascii) : bool :=
  let n := nat_of_ascii c in (97 <=? n)%nat && (n <=? 122)%nat.

Definition is_upper (c : ascii) : bool :=
  let n := nat_of_ascii c in (65 <=? n)%nat && (n <=? 90)%nat.

Definition upper_char (c : ascii) : ascii :=
  if is_lower c then ascii_of_nat (nat_of_ascii c - 32) else c.

Definition lower_char (c : ascii) : ascii :=
  if is_upper c then ascii_of_nat (nat_of_ascii c + 32) else c.

(** What [s.upper()] is for ASCII text. *)
Fixpoint ascii_upper (s : string) : string :=
  match s with
  | EmptyString => EmptyString
  | String c s' => String (upper_char c) (ascii_upper s')
  end.

(** What [s.lower()] is for ASCII text. *)
Fixpoint ascii_lower (s : string) : string :=
  match s with
  | EmptyString => EmptyString
  | String c s' => String (lower_char c) (ascii_lower s')
  end.

(** [s] is ASCII text: every byte is below 128. *)
Fixpoint is_ascii (s : string) : bool :=
  match s with
  | EmptyString => true
  | String c s' => (nat_of_ascii c <? 128)%nat && is_ascii s'
  end.

(** [s.split(sep)] for a one-character separator: never the empty list. *)
Fixpoint split (sep : ascii) (s : string) : list string :=
  match s with
  | EmptyString => [EmptyString]
  | String c s' =>
      if Ascii.eqb c sep then EmptyString :: split sep s'
      else match split sep s' with
           | [] => [String c EmptyString]
           | piece :: pieces => String c piece :: pieces
           end
  end.

(** [sep.join(pieces)] *)
Definition join (sep : string) (pieces : list string) : string :=
  String.concat sep pieces.

(** [c in s] for a character [c]. *)
Fixpoint mem (c : ascii) (s : string) : bool :=
  match s with
  | EmptyString => false
  | String d s' => Ascii.eqb c d || mem c s'
  end.

Fixpoint rev_acc (s acc : string) : string :=
  match s with
  | EmptyString => acc
  | String c s' => rev_acc s' (String c acc)
  end.

Fixpoint lstrip (c : ascii) (s : string) : string :=
  match s with
  | String d s' => if Ascii.eqb c d then lstrip c s' else s
  | EmptyString => EmptyString
  end.

(** [s.rstrip(c)] for a one-character set. *)
Definition rstrip (c : ascii) (s : string) : string :=
  rev_acc (lstrip c (rev_acc s EmptyString)) EmptyString.

(** A line feed or a carriage return occurs in [s]. *)
Definition has_newline (s : string) : bool :=
  mem "010"%char s || mem "013"%char s.

(** No ASCII lower-case letter occurs in [s]. *)
Fixpoint no_lower (s : string) : bool :=
  match s with
  | EmptyString => true
  | String c s' => negb (is_lower c) && no_lower s'
  end.

End Str.

(** ** Exceptions and results *)

Inductive exn : Type :=
| KeyError (key : string)          (* [d[key]] on a missing key *)
| IndexError                       (* [l[i]] out of range *)
| ValueError (what : string)       (* [float(what)] on a non-number, a header
                                      value [what] with a line break *)
| AttributeError                   (* [v.lower()] on a [v] that is no [str] *)
| ExpatError                       (* [parseString] on ill-formed XML *)
| TransportError (what : string)   (* raised by [requests] *)
| DatabaseError (what : string).   (* raised by the database driver *)

Inductive res (A : Type) : Type :=
| Ok (a : A)
| Raise (e : exn).

Arguments Ok {A} a.
Arguments Raise {A} e.

(** The specification's names for the two client errors of the print call:
    a missing parameter is the [KeyError] of [params[...]], a malformed one
    the [ValueError] of [float] or the [IndexError] of [extent[i]]. *)
Definition MissingParameterError {A} (r : res A) : Prop :=
  match r with Raise (KeyError _) => True | _ => False end.

Definition MalformedParameterError {A} (r : res A) : Prop :=
  match r with Raise (ValueError _) | Raise IndexError => True | _ => False end.

Definition succeeds {A} (r : res A) : Prop :=
  match r with Ok _ => True | Raise _ => False end.

(** ** Dictionaries *)

Module Dict.

Definition t (V : Type) : Type := list (string * V).

Definition empty {V} : t V := [].

(** [d.get(k)] as an option; [k in d] is [mem]. *)
Fixpoint get {V} (k : string) (d : t V) : option V :=
  match d with
  | [] => None
  | (k', v) :: d' => if String.eqb k k' then Some v else get k d'
  end.

Definition mem {V} (k : string) (d : t V) : bool :=
  match get k d with Some _ => true | None => false end.

(** [d[k]] *)
Definition getitem {V} (k : string) (d : t V) : res V :=
  match get k d with
  | Some v => Ok v
  | None => Raise (KeyError k)
  end.

(** [d[k] = v] *)
Fixpoint set {V} (k : string) (v : V) (d : t V) : t V :=
  match d with
  | [] => [(k, v)]
  | (k', v') :: d' =>
      if String.eqb k k' then (k', v) :: d' else (k', v') :: set k v d'
  end.

(** [del d[k]] *)
Fixpoint remove {V} (k : string) (d : t V) : t V :=
  match d with
  | [] => []
  | (k', v') :: d' =>
      if String.eqb k k' then remove k d' else (k', v') :: remove k d'
  end.

Definition del {V} (k : string) (d : t V) : res (t V) :=
  if mem k d then Ok (remove k d) else Raise (KeyError k).

(** [d.update(other)], which is also [dict(pairs)] from the empty dict. *)
Definition update {V} (d : t V) (other : list (string * V)) : t V :=
  fold_left (fun acc kv => set (fst kv) (snd kv) acc) other d.

Definition of_pairs {V} (pairs : list (string * V)) : t V :=
  update empty pairs.

(** [{k.upper(): v for k, v in d.items()}], one item at a time; [upper] is
    the builtin. *)
Definition upper_step {V} (upper : string -> string) (acc : t V) (kv : string * V) : t V :=
  set (upper (fst kv)) (snd kv) acc.

Definition upper_keys {V} (upper : string -> string) (d : t V) : t V :=
  fold_left (upper_step upper) d empty.

Definition keys {V} (d : t V) : list string := map fst d.

(** The same keys, each value seen through [f]. *)
Definition map_values {V W} (f : V -> W) (d : t V) : t W :=
  map (fun kv => (fst kv, f (snd kv))) d.

End Dict.

(** ** The XML document object model of [xml.dom.minidom] *)

Inductive node : Type :=
| Document (childNodes : list node)
| Element (tagName : string) (attributes : list (string * string))
          (childNodes : list node)
| Text (data : string).

Module Dom.

Definition childNodes (n : node) : list node :=
  match n with
  | Document kids | Element _ _ kids => kids
  | Text _ => []
  end.

Definition has_tag (name : string) (n : node) : bool :=
  match n with
  | Element t _ _ => String.eqb t name
  | _ => false
  end.

(** The elements named [name] in the subtree of [n], [n] included, in
    document order. *)
Fixpoint subtree_elements (name : string) (n : node) : list node :=
  (if has_tag name n then [n] else []) ++
  match n with
  | Document kids | Element _ _ kids => flat_map (subtree_elements name) kids
  | Text _ => []
  end.

(** [parent.getElementsByTagName(name)]: the proper descendants of [parent]
    that are elements named [name], in document order. *)
Definition getElementsByTagName (parent : node) (name : string) : list node :=
  flat_map (subtree_elements name) (childNodes parent).

(** [element.getAttribute(attname)]: the empty string when there is none. *)
Definition getAttribute (n : node) (attname : string) : string :=
  match n with
  | Element _ attrs _ =>
      match Dict.get attname attrs with Some v => v | None => "" end
  | _ => ""
  end.

End Dom.

(** [l[0]] *)
Definition item0 {A} (l : list A) : res A :=
  match l with
  | x :: _ => Ok x
  | [] => Raise IndexError
  end.

(** [l[i]] for [i >= 0] *)
Definition item {A} (l : list A) (i : nat) : res A :=
  match nth_error l i with
  | Some x => Ok x
  | None => Raise IndexError
  end.

(** ** Data of the two handlers *)

(** One entry of the list [layouts] of [get]. *)
Record composer_map : Type := {
  map_width : float;
  map_height : float;
  map_name : string
}.

Record layout : Type := {
  layout_name : string;
  layout_map : composer_map;
  layout_default : bool
}.

(** A value of [params]: a [str], [None] (a NULL column), or an object of
    another type, such as the date of a date column, which the handler only
    stores. *)
Inductive value : Type :=
| Str (s : string)
| PyNone
| Other (repr : string).

(** The row the spatial query selects; the handler only stores its
    values. *)
Record row : Type := {
  nfgeometer : value;
  lieferdatum : value;
  anschrift : value;
  kontakt : value;
  gemeinde : value
}.

(** One [conn.execute(sql, x=x, y=y)]. *)
Record query : Type := {
  q_sql : string;
  q_x : float;
  q_y : float
}.

(** What [requests.post] returns: status, headers, and the chunks that
    [iter_content] yields for a chunk size. *)
Record upstream : Type := {
  status_code : Z;
  up_headers : list (string * string);
  iter_content : nat -> list string
}.

(** The Flask [Response]. *)
Record response : Type := {
  status : Z;
  headers : list (string * string);
  body : list string
}.

(** ** What the handlers call but do not define

    The process environment, the builtins [str.upper], [str.lower] and
    [float], the XML parser, the HTTP client and the database driver. [None]
    of [float_of_string] is the [ValueError] of [float], [None] of
    [parseString] the [ExpatError]. Of [upper] and [lower] the three facts
    below are used, which hold of the builtins on UTF-8 text. *)
Class Externals : Type := {
  environ : Dict.t string;
  upper : string -> string;
  lower : string -> string;
  upper_ascii : forall s, Str.is_ascii s = true -> upper s = Str.ascii_upper s;
  lower_ascii : forall s, Str.is_ascii s = true -> lower s = Str.ascii_lower s;
  upper_without_lower : forall s, Str.no_lower (upper s) = true;
  float_of_string : string -> option float;
  parseString : string -> option node;
  requests_get : string -> Dict.t string -> res string;
  requests_post : string -> Z -> Dict.t value -> res upstream;
  db_connect : res unit;
  db_fetchone : string -> float -> float -> res (option row)
}.

(** Header collections compare names without regard to case: the
    [CaseInsensitiveDict] of [requests] and the [Headers] of werkzeug both
    compare [name.lower()]. *)
Module Headers.

Section WithLower.

Context {ext : Externals}.

Definition same (k k' : string) : bool := String.eqb (lower k) (lower k').

Fixpoint get (k : string) (h : list (string * string)) : option string :=
  match h with
  | [] => None
  | (k', v) :: h' => if same k k' then Some v else get k h'
  end.

(** [req.headers[k]] *)
Definition getitem (k : string) (h : list (string * string)) : res string :=
  match get k h with
  | Some v => Ok v
  | None => Raise (KeyError k)
  end.

(** The first header of that name is replaced, further ones are dropped,
    and a new name is appended. *)
Fixpoint replace (k v : string) (h : list (string * string)) : list (string * string) :=
  match h with
  | [] => [(k, v)]
  | (k', v') :: h' =>
      if same k k' then (k, v) :: filter (fun kv => negb (same k (fst kv))) h'
      else (k', v') :: replace k v h'
  end.

(** [response.headers[k] = v]: a value with a line break is refused with a
    [ValueError]. *)
Definition set (k v : string) (h : list (string * string))
  : res (list (string * string)) :=
  if Str.has_newline v then Raise (ValueError v) else Ok (replace k v h).

End WithLower.

End Headers.

(** The state a print call can change: how many connections are checked out
    of the pool, and the statements executed so far. *)
Record world : Type := {
  checked_out : nat;
  executed : list query
}.

(** A computation over the world that may raise. *)
Definition M (A : Type) : Type := world -> res A * world.

Definition ret {A} (a : A) : M A := fun w => (Ok a, w).

Definition bind {A B} (m : M A) (k : A -> M B) : M B :=
  fun w => match m w with
           | (Ok a, w') => k a w'
           | (Raise e, w') => (Raise e, w')
           end.

Definition lift {A} (r : res A) : M A := fun w => (r, w).

Declare Scope py_scope.
Delimit Scope py_scope with py.
Notation "x <- m ;; k" := (bind m (fun x => k))
  (at level 61, m at next level, right associativity) : py_scope.
Notation "m ;;; k" := (bind m (fun _ => k))
  (at level 61, right associativity) : py_scope.

(** The monad of pure code that may raise. *)
Definition rbind {A B} (r : res A) (k : A -> res B) : res B :=
  match r with
  | Ok a => k a
  | Raise e => Raise e
  end.

Fixpoint map_res {A B} (f : A -> res B) (l : list A) : res (list B) :=
  match l with
  | [] => Ok []
  | x :: l' => rbind (f x) (fun y => rbind (map_res f l') (fun ys => Ok (y :: ys)))
  end.

(** ** The handlers *)

Section Handlers.

Context {ext : Externals}.

(** [os.getenv(name, default)] and [os.environ.get(name, default)] *)
Definition getenv (name default : string) : string :=
  match Dict.get name environ with
  | Some v => v
  | None => default
  end.

(** [float(s)] *)
Definition float (s : string) : res PrimFloat.float :=
  match float_of_string s with
  | Some f => Ok f
  | None => Raise (ValueError s)
  end.

Definition QGIS_SERVER_URL : string :=
  getenv "QGIS_SERVER_URL" "http://localhost:8001/ows/".

Definition DEFAULT_LANDREG_LAYOUT : string :=
  getenv "DEFAULT_LANDREG_LAYOUT" "A4-Hoch".

(** [QGIS_SERVER_URL.rstrip("/") + "/" + project] *)
Definition project_url (project : string) : string :=
  Str.rstrip "/" QGIS_SERVER_URL ++ "/" ++ project.

(** *** [LandRegisterTemplates.get] *)

(** One turn of the [for template in ...] loop, up to [layouts.append]. *)
Definition template_entry (template : node) : res layout :=
  let name := Dom.getAttribute template "name" in
  rbind (item0 (Dom.getElementsByTagName template "ComposerMap")) (fun composerMap =>
  rbind (float (Dom.getAttribute composerMap "width")) (fun w =>
  rbind (float (Dom.getAttribute composerMap "height")) (fun h =>
  Ok {| layout_name := name;
        layout_map := {| map_width := w; map_height := h;
                         map_name := Dom.getAttribute composerMap "name" |};
        layout_default := String.eqb name DEFAULT_LANDREG_LAYOUT |}))).

(** The loop: [layouts] is threaded through, and is what it is when a turn
    raises. *)
Fixpoint for_templates (templates : list node) (layouts : list layout)
  : res unit * list layout :=
  match templates with
  | [] => (Ok tt, layouts)
  | template :: rest =>
      match template_entry template with
      | Ok entry => for_templates rest (layouts ++ [entry])
      | Raise e => (Raise e, layouts)
      end
  end.

(** The three chained [getElementsByTagName(...)[0]]. *)
Definition composer_templates (capabilities : node) : res node :=
  rbind (item0 (Dom.getElementsByTagName capabilities "WMS_Capabilities")) (fun root =>
  rbind (item0 (Dom.getElementsByTagName root "Capability")) (fun capability =>
  item0 (Dom.getElementsByTagName capability "ComposerTemplates"))).

(** The body of the [try] statement, from [layouts]. *)
Definition try_body (text : string) (layouts : list layout)
  : res unit * list layout :=
  match parseString text with
  | None => (Raise ExpatError, layouts)
  | Some capabilities =>
      match composer_templates capabilities with
      | Raise e => (Raise e, layouts)
      | Ok templates =>
          for_templates (Dom.getElementsByTagName templates "ComposerTemplate") layouts
      end
  end.

(** [layouts = []; try: ... except: pass; return layouts] *)
Definition parse_capabilities (text : string) : list layout :=
  snd (try_body text []).

Definition get_params : Dict.t string :=
  [("SERVICE", "WMS"); ("VERSION", "1.3.0"); ("REQUEST", "GetProjectSettings")].

(** The handler: [requests.get] stands before the [try]. *)
Definition get : res (list layout) :=
  let project := getenv "LANDREG_PROJECT" "grundbuch" in
  let url := project_url project in
  rbind (requests_get url get_params) (fun text =>
  Ok (parse_capabilities text)).

(** *** [LandRegisterExtract.post] *)

Definition default_params : Dict.t string :=
  [("SERVICE", "WMS"); ("VERSION", "1.3.0"); ("REQUEST", "GetPrint"); ("FORMAT", "PDF")].

(** [params] after [params.update(post_params)] and the upper-casing of its
    keys; [pairs] is the list [urlparse.parse_qsl] makes of the request
    body. *)
Definition merged_params (pairs : list (string * string)) : Dict.t string :=
  let post_params := Dict.of_pairs pairs in
  Dict.upper_keys upper (Dict.update default_params post_params).

(** [",".join(map(lambda item: "255", layers.split(",")))] *)
Definition opacities (layers : string) : string :=
  Str.join "," (map (fun _ => "255") (Str.split "," layers)).

(** [params] after [LAYERS] and [OPACITIES] are set; [params["LAYERS"]] is
    read back from the dictionary as the source does. *)
Definition with_layers (params : Dict.t string) : res (Dict.t string) :=
  let params := Dict.set "LAYERS" (getenv "LANDREG_PRINT_LAYERS" "Grundstuecke") params in
  rbind (Dict.getitem "LAYERS" params) (fun layers =>
  Ok (Dict.set "OPACITIES" (opacities layers) params)).

(** The centre of the extent: every piece is converted before any is
    indexed. *)
Definition extent_center (params : Dict.t string)
  : res (PrimFloat.float * PrimFloat.float) :=
  rbind (Dict.getitem "EXTENT" params) (fun e =>
  rbind (map_res float (Str.split "," e)) (fun extent =>
  rbind (item extent 0) (fun e0 =>
  rbind (item extent 2) (fun e2 =>
  let x := (0.5 * (e0 + e2))%float in
  rbind (item extent 1) (fun e1 =>
  rbind (item extent 3) (fun e3 =>
  let y := (0.5 * (e1 + e3))%float in
  Ok (x, y))))))).

(** The statement, with the table name formatted in (its line breaks and
    indentation written as single spaces). *)
Definition print_info_sql (table : string) : string :=
  "SELECT nfgeometer, lieferdatum, anschrift, kontakt, gemeinde FROM " ++ table ++
  " WHERE ST_CONTAINS(geometrie, ST_SetSRID(ST_MakePoint(:x, :y), 2056));".

Definition connect : M unit :=
  fun w => match db_connect with
           | Ok _ => (Ok tt, {| checked_out := S (checked_out w); executed := executed w |})
           | Raise e => (Raise e, w)
           end.

Definition execute_fetchone (sql : string) (x y : PrimFloat.float) : M (option row) :=
  fun w => (db_fetchone sql x y,
            {| checked_out := checked_out w;
               executed := executed w ++ [{| q_sql := sql; q_x := x; q_y := y |}] |}).

Definition close : M unit :=
  fun w => (Ok tt, {| checked_out := Nat.pred (checked_out w); executed := executed w |}).

(** Until the row is stored every value of [params] is a [str]. *)
Definition as_values (params : Dict.t string) : Dict.t value :=
  Dict.map_values Str params.

(** [if sql_result: params[...] = sql_result[...]] *)
Definition enrich (sql_result : option row) (params : Dict.t value) : Dict.t value :=
  match sql_result with
  | Some r =>
      Dict.set "GEMEINDE" (gemeinde r)
        (Dict.set "KONTAKT" (kontakt r)
           (Dict.set "ANSCHRIFT" (anschrift r)
              (Dict.set "LIEFERDATUM" (lieferdatum r)
                 (Dict.set "NFGEOMETER" (nfgeometer r) params))))
  | None => params
  end.

(** [params["map0:" + k] = params[k]; del params[k]] *)
Definition prefix_key (k : string) (params : Dict.t value) : res (Dict.t value) :=
  rbind (Dict.getitem k params) (fun v =>
  Dict.del k (Dict.set ("map0:" ++ k) v params)).

(** The same under [if k in params]. *)
Definition prefix_key_if_present (k : string) (params : Dict.t value)
  : res (Dict.t value) :=
  if Dict.mem k params then prefix_key k params else Ok params.

Definition prefix_keys (params : Dict.t value) : res (Dict.t value) :=
  rbind (prefix_key "EXTENT" params) (fun params =>
  rbind (prefix_key "SCALE" params) (fun params =>
  rbind (prefix_key "ROTATION" params) (fun params =>
  rbind (prefix_key_if_present "GRID_INTERVAL_X" params) (fun params =>
  prefix_key_if_present "GRID_INTERVAL_Y" params)))).

(** The handler up to the forwarding: the finished [params]. *)
Definition build (pairs : list (string * string)) : M (Dict.t value) :=
  (params <- lift (with_layers (merged_params pairs)) ;;
   xy <- lift (extent_center params) ;;
   let table := getenv "LANDREG_PRINTINFO_TABLE" "agi_nfgeometer_pub.print_info" in
   connect ;;;
   sql_result <- execute_fetchone (print_info_sql table) (fst xy) (snd xy) ;;
   let params := enrich sql_result (as_values params) in
   close ;;;
   lift (prefix_keys params))%py.

(** [v.lower()] *)
Definition value_lower (v : value) : res string :=
  match v with
  | Str s => Ok (lower s)
  | _ => Raise AttributeError
  end.

(** The forwarding and the response. *)
Definition forward (params : Dict.t value) : res response :=
  let project := getenv "LANDREG_PROJECT" "grundbuch" in
  let url := project_url project in
  rbind (requests_post url 120 params) (fun req =>
  let response := {| status := status_code req;
                     headers := [("Content-Type", "text/html; charset=utf-8")];
                     body := iter_content req 1024 |} in
  rbind (Headers.getitem "content-type" (up_headers req)) (fun ct =>
  rbind (Headers.set "content-type" ct (headers response)) (fun hs =>
  let response := {| status := status response;
                     headers := hs;
                     body := body response |} in
  rbind (Headers.getitem "content-type" (up_headers req)) (fun ct' =>
  if String.eqb ct' "application/pdf" then
    rbind (Dict.getitem "FORMAT" params) (fun fmt =>
    rbind (value_lower fmt) (fun fmt_lower =>
    rbind (Headers.set "content-disposition"
             ("attachment; filename=" ++ project ++ "." ++ fmt_lower)
             (headers response)) (fun hs =>
    Ok {| status := status response;
          headers := hs;
          body := body response |})))
  else Ok response)))).

Definition post (pairs : list (string * string)) : M response :=
  (params <- build pairs ;; lift (forward params))%py.

End Handlers.

(** ** A concrete setting for examples

    [decimal_float] reads the plain decimal numerals ([-12], [3.25], [.5])
    with at most fifteen digits: on those the quotient of two exactly
    represented integers is the correctly rounded value, which is what
    [float] returns. Anything else it rejects, so it stands for [float] only
    on such numerals and on text that is no number at all. *)

Definition digit (c : ascii) : option Z :=
  let n := nat_of_ascii c in
  if (48 <=? n)%nat && (n <=? 57)%nat then Some (Z.of_nat (n - 48)) else None.

Fixpoint digits_value (s : string) (acc : Z) : option Z :=
  match s with
  | EmptyString => Some acc
  | String c s' =>
      match digit c with
      | Some d => digits_value s' (10 * acc + d)
      | None => None
      end
  end.

Definition float_of_Z (n : Z) : PrimFloat.float := PrimFloat.of_uint63 (Uint63.of_Z n).

Definition unsigned_decimal (s : string) : option PrimFloat.float :=
  match Str.split "." s with
  | [i] =>
      if (String.length i =? 0)%nat || (15 <? String.length i)%nat then None
      else option_map float_of_Z (digits_value i 0)
  | [i; f] =>
      let n := (String.length i + String.length f)%nat in
      if (n =? 0)%nat || (15 <? n)%nat then None
      else match digits_value (i ++ f) 0 with
           | Some m => Some (float_of_Z m / float_of_Z (10 ^ Z.of_nat (String.length f)))%float
           | None => None
           end
  | _ => None
  end.

Definition decimal_float (s : string) : option PrimFloat.float :=
  match s with
  | String "-" s' => option_map PrimFloat.opp (unsigned_decimal s')
  | String "+" s' => unsigned_decimal s'
  | _ => unsigned_decimal s
  end.


(** A capabilities document with two templates, and the same document with
    the map frame of the second template left out. *)
Definition template_a4 : node :=
  Element "ComposerTemplate" [("width", "210"); ("height", "297"); ("name", "A4-Hoch")]
    [Element "ComposerMap" [("width", "190"); ("height", "270"); ("name", "map0")] [];
     Element "ComposerLabel" [("name", "title")] []].

Definition template_a3 : node :=
  Element "ComposerTemplate" [("width", "420"); ("height", "297"); ("name", "A3-Quer")]
    [Element "ComposerMap" [("width", "400"); ("height", "270"); ("name", "map0")] []].

Definition template_a3_no_map : node :=
  Element "ComposerTemplate" [("width", "420"); ("height", "297"); ("name", "A3-Quer")] [].

Definition capabilities_of (templates : list node) : node :=
  Document
    [Element "WMS_Capabilities" [("version", "1.3.0")]
       [Element "Service" [] [Element "Name" [] [Text "WMS"]];
        Element "Capability" []
          [Element "Request" [] [];
           Element "ComposerTemplates" [] templates;
           Element "Layer" [] []]]].

Definition two_templates_text : string :=
  "<WMS_Capabilities version='1.3.0'><Service><Name>WMS</Name></Service><Capability><Request/><ComposerTemplates><ComposerTemplate width='210' height='297' name='A4-Hoch'><ComposerMap width='190' height='270' name='map0'/><ComposerLabel name='title'/></ComposerTemplate><ComposerTemplate width='420' height='297' name='A3-Quer'><ComposerMap width='400' height='270' name='map0'/></ComposerTemplate></ComposerTemplates><Layer/></Capability></WMS_Capabilities>".

Definition second_without_map_text : string :=
  "<WMS_Capabilities version='1.3.0'><Service><Name>WMS</Name></Service><Capability><Request/><ComposerTemplates><ComposerTemplate width='210' height='297' name='A4-Hoch'><ComposerMap width='190' height='270' name='map0'/><ComposerLabel name='title'/></ComposerTemplate><ComposerTemplate width='420' height='297' name='A3-Quer'/></ComposerTemplates><Layer/></Capability></WMS_Capabilities>".

(** The parser on the texts used below: the two documents above, and
    [None] elsewhere (in particular on the ill-formed ["<WMS_Capabilities>"]). *)
Definition sample_parseString (text : string) : option node :=
  if String.eqb text two_templates_text then
    Some (capabilities_of [template_a4; template_a3])
  else if String.eqb text second_without_map_text then
    Some (capabilities_of [template_a4; template_a3_no_map])
  else None.

Definition sample_row : row :=
  {| nfgeometer := Str "Geometer AG";
     lieferdatum := Other "datetime.date(2019, 1, 31)";
     anschrift := Str "Hauptgasse 1";
     kontakt := PyNone;
     gemeinde := Str "Solothurn" |}.

Definition pdf_upstream : upstream :=
  {| status_code := 200;
     up_headers := [("Content-Type", "application/pdf")];
     iter_content := fun _ => ["%PDF-1.4"] |}.

(** The ASCII case mappings meet what [Externals] asks of [upper] and
    [lower]; they stand for the builtins on the ASCII text of the examples
    below. *)
Definition ascii_upper_char_without_lower (c : ascii) :
  Str.is_lower (Str.upper_char c) = false.
Proof.
  destruct c as [b0 b1 b2 b3 b4 b5 b6 b7].
  destruct b0, b1, b2, b3, b4, b5, b6, b7; reflexivity.
Defined.

Definition ascii_upper_without_lower (s : string) :
  Str.no_lower (Str.ascii_upper s) = true.
Proof.
  induction s as [|c s IH]; simpl; [reflexivity|].
  now rewrite ascii_upper_char_without_lower, IH.
Defined.

(** A setting: the environment [env], an engine that answers
    [capabilities] and [printed], and a database that connects and answers
    [lookup]. *)
Definition sample (env : Dict.t string) (capabilities : res string)
    (printed : res upstream) (lookup : res (option row)) : Externals :=
  {| environ := env;
     upper := Str.ascii_upper;
     lower := Str.ascii_lower;
     upper_ascii := fun _ _ => eq_refl;
     lower_ascii := fun _ _ => eq_refl;
     upper_without_lower := ascii_upper_without_lower;
     float_of_string := decimal_float;
     parseString := sample_parseString;
     requests_get := fun _ _ => capabilities;
     requests_post := fun _ _ _ => printed;
     db_connect := Ok tt;
     db_fetchone := fun _ _ _ => lookup |}.

Definition idle : world := {| checked_out := 0; executed := [] |}.

(** Everything answers, the point lies in a parcel, three layers are
    configured. *)
Definition office : Externals :=
  sample [("LANDREG_PRINT_LAYERS", "Grundstuecke,Gebaeude,Strassen")]
         (Ok two_templates_text) (Ok pdf_upstream) (Ok (Some sample_row)).

(** The second template of the capabilities has lost its map frame. *)
Definition office_incomplete : Externals :=
  sample [] (Ok second_without_map_text) (Ok pdf_upstream) (Ok None).

(** The engine cannot be reached. *)
Definition office_offline : Externals :=
  sample [] (Raise (TransportError "connection refused"))
         (Raise (TransportError "connection refused")) (Ok None).

(** The lookup table is missing: the query raises. *)
Definition office_no_table : Externals :=
  sample [] (Ok two_templates_text) (Ok pdf_upstream)
         (Raise (DatabaseError "relation does not exist")).

Definition a4_pairs : list (string * string) :=
  [("TEMPLATE", "A4-Hoch"); ("EXTENT", "10,20,30,40"); ("SCALE", "1000");
   ("ROTATION", "0"); ("dpi", "300"); ("grid_interval_x", "100")].

Definition a4_finished : Dict.t value :=
  Eval vm_compute in
    match fst (@build office a4_pairs idle) with Ok params => params | Raise _ => [] end.

Definition a4_world : world := Eval vm_compute in snd (@build office a4_pairs idle).

Definition a4_response : response :=
  Eval vm_compute in
    match fst (@post office a4_pairs idle) with
    | Ok r => r
    | Raise _ => {| status := 0; headers := []; body := [] |}
    end.

Definition a4_layout : layout :=
  {| layout_name := "A4-Hoch";
     layout_map := {| map_width := 190; map_height := 270; map_name := "map0" |};
     layout_default := true |}.

Definition no_scale_pairs : list (string * string) :=
  [("TEMPLATE", "A4-Hoch"); ("EXTENT", "0,0,10,10"); ("ROTATION", "0")].

Definition five_pieces_pairs : list (string * string) :=
  [("EXTENT", "1,2,3,4,5"); ("SCALE", "1000"); ("ROTATION", "0")].

Definition no_scale_bad_extent_pairs : list (string * string) :=
  [("EXTENT", "abc"); ("ROTATION", "0")].

Definition plain_pairs : list (string * string) :=
  [("EXTENT", "0,0,10,10"); ("SCALE", "1000"); ("ROTATION", "0")].

Definition two_dpi_pairs : list (string * string) :=
  [("EXTENT", "0,0,10,10"); ("SCALE", "1000"); ("ROTATION", "0");
   ("dpi", "300"); ("DPI", "600")].

Definition own_geometer_pairs : list (string * string) :=
  [("EXTENT", "0,0,10,10"); ("SCALE", "1000"); ("ROTATION", "0");
   ("NFGEOMETER", "Muster AG")].

(** The pool gives no connection. *)
Definition office_no_connection : Externals :=
  {| environ := [];
     upper := Str.ascii_upper;
     lower := Str.ascii_lower;
     upper_ascii := fun _ _ => eq_refl;
     lower_ascii := fun _ _ => eq_refl;
     upper_without_lower := ascii_upper_without_lower;
     float_of_string := decimal_float;
     parseString := sample_parseString;
     requests_get := fun _ _ => Ok two_templates_text;
     requests_post := fun _ _ _ => Ok pdf_upstream;
     db_connect := Raise (DatabaseError "pool exhausted");
     db_fetchone := fun _ _ _ => Ok None |}.

(** A gateway answers for the engine, without a content type. *)
Definition bare_upstream : upstream :=
  {| status_code := 502;
     up_headers := [("Server", "nginx")];
     iter_content := fun _ => ["Bad Gateway"] |}.

Definition office_behind_gateway : Externals :=
  sample [] (Ok two_templates_text) (Ok bare_upstream) (Ok None).

Definition bad_piece_pairs : list (string * string) :=
  [("EXTENT", "1,x,3,y"); ("SCALE", "1000"); ("ROTATION", "0")].


Definition two_formats_pairs : list (string * string) :=
  [("EXTENT", "0,0,10,10"); ("SCALE", "1000"); ("ROTATION", "0");
   ("format", "svg"); ("FORMAT", "png")].

(** ** The vocabulary of the specification *)

Section Vocabulary.

Context {ext : Externals}.

(** [child] is the first element named [name] below [parent]. *)
Definition first_of (parent : node) (name : string) (child : node) : Prop :=
  exists rest, Dom.getElementsByTagName parent name = child :: rest.

(** No element named [name] lies below [parent]. *)
Definition lacks (parent : node) (name : string) : Prop :=
  Dom.getElementsByTagName parent name = [].

(** [templates] is the [ComposerTemplates] element reached through the fixed
    nesting root, [Capability], [ComposerTemplates]. *)
Definition nesting (capabilities templates : node) : Prop :=
  exists root capability,
    first_of capabilities "WMS_Capabilities" root /\
    first_of root "Capability" capability /\
    first_of capability "ComposerTemplates" templates.

(** One of the three levels of the nesting is missing. *)
Definition nesting_broken (capabilities : node) : Prop :=
  lacks capabilities "WMS_Capabilities" \/
  (exists root, first_of capabilities "WMS_Capabilities" root /\
     (lacks root "Capability" \/
      exists capability, first_of root "Capability" capability /\
        lacks capability "ComposerTemplates")).

(** [layout] is the descriptor of [template]: its name, and the width,
    height and name of its map frame, the two numbers as [float] reads
    them. *)
Definition describes (template : node) (l : layout) : Prop :=
  exists composerMap,
    first_of template "ComposerMap" composerMap /\
    float_of_string (Dom.getAttribute composerMap "width") = Some (map_width (layout_map l)) /\
    float_of_string (Dom.getAttribute composerMap "height") = Some (map_height (layout_map l)) /\
    map_name (layout_map l) = Dom.getAttribute composerMap "name" /\
    layout_name l = Dom.getAttribute template "name" /\
    layout_default l = String.eqb (Dom.getAttribute template "name") DEFAULT_LANDREG_LAYOUT.

(** [template] has no map frame whose width and height are numbers. *)
Definition defective (template : node) : Prop :=
  lacks template "ComposerMap" \/
  exists composerMap, first_of template "ComposerMap" composerMap /\
    (float_of_string (Dom.getAttribute composerMap "width") = None \/
     float_of_string (Dom.getAttribute composerMap "height") = None).

(** [template] holds a map frame whose width and height are numbers. *)
Definition framed (template : node) : Prop :=
  exists composerMap w h,
    first_of template "ComposerMap" composerMap /\
    float_of_string (Dom.getAttribute composerMap "width") = Some w /\
    float_of_string (Dom.getAttribute composerMap "height") = Some h.

Definition is_number (s : string) : Prop := float_of_string s <> None.

(** What the handler can read as an extent: at least four comma-separated
    pieces, every one a number. *)
Definition extent_readable (e : string) : Prop :=
  4 <= length (Str.split "," e) /\ Forall is_number (Str.split "," e).

(** Four comma-separated floats, as the specification has it. *)
Definition four_floats (e : string) : Prop :=
  exists a b c d, Str.split "," e = [a; b; c; d] /\
    is_number a /\ is_number b /\ is_number c /\ is_number d.

Definition geometry_keys : list string :=
  ["EXTENT"; "SCALE"; "ROTATION"; "GRID_INTERVAL_X"; "GRID_INTERVAL_Y"].

Definition injected_keys : list string := ["LAYERS"; "OPACITIES"].

Definition parcel_keys : list string :=
  ["NFGEOMETER"; "LIEFERDATUM"; "ANSCHRIFT"; "KONTAKT"; "GEMEINDE"].

Definition prefixed_keys : list string := map (fun k => ("map0:" ++ k)%string) geometry_keys.

(** What prefixing does to a dictionary: the value of [k], when it has one,
    moves to the key [map0:k]. *)
Definition renamed (k : string) (params : Dict.t value) : Dict.t value :=
  match Dict.get k params with
  | Some v => Dict.remove k (Dict.set ("map0:" ++ k) v params)
  | None => params
  end.

Definition all_renamed (params : Dict.t value) : Dict.t value :=
  fold_left (fun acc k => renamed k acc) geometry_keys params.

(** The merged mapping before its keys are upper-cased. *)
Definition merged_items (pairs : list (string * string)) : Dict.t string :=
  Dict.update default_params (Dict.of_pairs pairs).

(** The contract of [build] read literally: a missing-parameter failure
    whenever one of the three keys is absent after the merge, a
    malformed-parameter failure whenever [EXTENT] is not four floats, success
    otherwise. *)
Definition build_contract_as_stated (pairs : list (string * string)) (w : world) : Prop :=
  let params := merged_params pairs in
  let outcome := fst (build pairs w) in
  (Dict.get "EXTENT" params = None \/ Dict.get "SCALE" params = None \/
   Dict.get "ROTATION" params = None -> MissingParameterError outcome) /\
  (forall e, Dict.get "EXTENT" params = Some e -> ~ four_floats e ->
     MalformedParameterError outcome) /\
  (forall e, Dict.get "EXTENT" params = Some e -> four_floats e ->
     Dict.get "SCALE" params <> None -> Dict.get "ROTATION" params <> None ->
     succeeds outcome).

(** The lenient parsing read literally: the empty list whenever the text is
    ill-formed, a level of the nesting is missing, or some template is
    defective. *)
Definition lenient_parse_as_stated (text : string) : Prop :=
  (parseString text = None \/
   exists capabilities, parseString text = Some capabilities /\
     (nesting_broken capabilities \/
      exists templates template, nesting capabilities templates /\
        In template (Dom.getElementsByTagName templates "ComposerTemplate") /\
        defective template)) ->
  parse_capabilities text = [].

(** The frame of [build] read literally: every caller parameter outside the
    seven listed keys is forwarded under its upper-cased key. *)
Definition frame_as_stated (pairs : list (string * string)) (w : world) : Prop :=
  forall params w', build pairs w = (Ok params, w') ->
  forall k v, Dict.get k (Dict.of_pairs pairs) = Some v ->
    ~ In (upper k) (geometry_keys ++ injected_keys) ->
    Dict.get (upper k) params = Some (Str v).

End Vocabulary.

(** * Properties *)

Unset Implicit Arguments.

Example decimal_float_ex :
  decimal_float "10" = Some 10%float /\ decimal_float "-2.5" = Some (-2.5)%float /\
  decimal_float "0.125" = Some 0.125%float /\ decimal_float "abc" = None /\
  decimal_float "" = None.
Proof. repeat split; reflexivity. Qed.

(** ** Strings *)

(** A key with a lower-case letter is not the upper-casing of anything. *)
Lemma upper_neq {ext : Externals} (k K : string) :
  Str.no_lower K = false -> upper k <> K.
Proof.
  intros HK E. rewrite <- E, upper_without_lower in HK. discriminate.
Qed.

Lemma split_not_nil (sep : ascii) (s : string) : Str.split sep s <> [].
Proof.
  induction s as [|c s IH]; simpl; [discriminate|].
  destruct (Ascii.eqb c sep); [discriminate|].
  destruct (Str.split sep s); discriminate.
Qed.

Lemma split_length (sep : ascii) (s : string) : 1 <= length (Str.split sep s).
Proof.
  pose proof (split_not_nil sep s) as H.
  destruct (Str.split sep s); [contradiction | simpl; lia].
Qed.

Lemma split_without_sep (sep : ascii) (p : string) :
  Str.mem sep p = false -> Str.split sep p = [p].
Proof.
  induction p as [|c p IH]; simpl; intros H; [reflexivity|].
  apply orb_false_iff in H as [Hc Hp].
  rewrite Ascii.eqb_sym, Hc, (IH Hp). reflexivity.
Qed.

Lemma split_before_sep (sep : ascii) (p rest : string) :
  Str.mem sep p = false ->
  Str.split sep (p ++ String sep rest) = p :: Str.split sep rest.
Proof.
  induction p as [|c p IH]; simpl; intros H.
  - now rewrite Ascii.eqb_refl.
  - apply orb_false_iff in H as [Hc Hp].
    rewrite Ascii.eqb_sym, Hc, (IH Hp). reflexivity.
Qed.

(** Splitting undoes joining when no piece holds the separator. *)
Lemma split_join (sep : ascii) (pieces : list string) :
  pieces <> [] ->
  Forall (fun p => Str.mem sep p = false) pieces ->
  Str.split sep (Str.join (String sep EmptyString) pieces) = pieces.
Proof.
  induction pieces as [|p pieces IH]; intros Hne Hall; [contradiction|].
  inversion Hall as [|? ? Hp Hrest]; subst.
  destruct pieces as [|q pieces].
  - simpl. now apply split_without_sep.
  - change (Str.join (String sep "") (p :: q :: pieces))
      with (p ++ String sep (Str.join (String sep "") (q :: pieces)))%string.
    rewrite split_before_sep by assumption.
    f_equal. apply IH; [discriminate | assumption].
Qed.

(** ** Dictionaries *)

Lemma dict_get_set {V : Type} (k : string) (v : V) (K : string) (d : Dict.t V) :
  Dict.get K (Dict.set k v d) = if String.eqb K k then Some v else Dict.get K d.
Proof.
  induction d as [|[k' v'] d IH]; simpl.
  - reflexivity.
  - destruct (String.eqb_spec k k') as [->|Hk]; simpl.
    + destruct (String.eqb_spec K k'); reflexivity.
    + rewrite IH. destruct (String.eqb_spec K k') as [->|]; [|reflexivity].
      destruct (String.eqb_spec k' k); [congruence | reflexivity].
Qed.

Lemma dict_get_remove {V : Type} (k K : string) (d : Dict.t V) :
  Dict.get K (Dict.remove k d) = if String.eqb K k then None else Dict.get K d.
Proof.
  induction d as [|[k' v'] d IH]; simpl.
  - now destruct (String.eqb K k).
  - destruct (String.eqb_spec k k') as [->|Hk]; simpl.
    + rewrite IH. destruct (String.eqb_spec K k'); reflexivity.
    + rewrite IH. destruct (String.eqb_spec K k') as [->|]; [|reflexivity].
      destruct (String.eqb_spec k' k); [congruence | reflexivity].
Qed.

Lemma dict_keys_set {V : Type} (k : string) (v : V) (d : Dict.t V) :
  Dict.keys (Dict.set k v d) =
  if Dict.mem k d then Dict.keys d else Dict.keys d ++ [k].
Proof.
  unfold Dict.mem.
  induction d as [|[k' v'] d IH]; simpl; [reflexivity|].
  destruct (String.eqb_spec k k') as [->|Hk]; simpl; [reflexivity|].
  rewrite IH. now destruct (Dict.get k d).
Qed.

Lemma dict_get_none_keys {V : Type} (k : string) (d : Dict.t V) :
  Dict.get k d = None <-> ~ In k (Dict.keys d).
Proof.
  induction d as [|[k' v'] d IH]; simpl; [tauto|].
  destruct (String.eqb_spec k k') as [->|Hk].
  - split; [discriminate | intros H; exfalso; apply H; now left].
  - rewrite IH. split; [intros H [E|I]; [congruence | tauto] | tauto].
Qed.

Lemma dict_get_none_keys_not {V : Type} (k : string) (d : Dict.t V) :
  Dict.get k d <> None -> In k (Dict.keys d).
Proof.
  intros H. destruct (in_dec string_dec k (Dict.keys d)) as [I|N]; [assumption|].
  now apply dict_get_none_keys in N.
Qed.

Lemma dict_set_nodup {V : Type} (k : string) (v : V) (d : Dict.t V) :
  NoDup (Dict.keys d) -> NoDup (Dict.keys (Dict.set k v d)).
Proof.
  intros H. rewrite dict_keys_set. unfold Dict.mem.
  destruct (Dict.get k d) eqn:E; [assumption|].
  apply dict_get_none_keys in E.
  apply NoDup_app; [assumption | repeat constructor; intros [] | ].
  intros x Hx [<-|[]]. contradiction.
Qed.

Lemma dict_update_nodup {V : Type} (other : list (string * V)) (d : Dict.t V) :
  NoDup (Dict.keys d) -> NoDup (Dict.keys (Dict.update d other)).
Proof.
  unfold Dict.update. revert d.
  induction other as [|[k v] other IH]; simpl; intros d H; [assumption|].
  apply IH. now apply dict_set_nodup.
Qed.

(** [update] by a dictionary: its bindings win, the others stay. *)
Lemma dict_get_update {V : Type} (other d : Dict.t V) (K : string) :
  NoDup (Dict.keys other) ->
  Dict.get K (Dict.update d other) =
  match Dict.get K other with Some v => Some v | None => Dict.get K d end.
Proof.
  unfold Dict.update. revert d.
  induction other as [|[k v] other IH]; simpl; intros d H; [reflexivity|].
  inversion H as [|? ? Hk Hrest]; subst.
  rewrite (IH _ Hrest), dict_get_set.
  destruct (String.eqb_spec K k) as [->|]; [|reflexivity].
  apply dict_get_none_keys in Hk. now rewrite Hk.
Qed.

Lemma dict_get_in {V : Type} (k : string) (v : V) (d : Dict.t V) :
  Dict.get k d = Some v -> In (k, v) d.
Proof.
  induction d as [|[k' v'] d IH]; simpl; [discriminate|].
  destruct (String.eqb_spec k k') as [->|]; intros H.
  - injection H as ->. now left.
  - right. now apply IH.
Qed.

Lemma dict_get_map_values {V W : Type} (f : V -> W) (k : string) (d : Dict.t V) :
  Dict.get k (Dict.map_values f d) = option_map f (Dict.get k d).
Proof.
  induction d as [|[k' v'] d IH]; cbn; [reflexivity|].
  now destruct (String.eqb k k').
Qed.

Section UpperKeys.

Context {ext : Externals} {V : Type}.

(** The upper-casing loop, from any accumulator. *)
Lemma upper_loop_untouched (d acc : Dict.t V) (K : string) :
  Forall (fun kv => upper (fst kv) <> K) d ->
  Dict.get K (fold_left (Dict.upper_step upper) d acc) = Dict.get K acc.
Proof.
  revert acc. induction d as [|[k v] d IH]; simpl; intros acc H; [reflexivity|].
  inversion H as [|? ? Hk Hrest]; subst. rewrite (IH _ Hrest).
  unfold Dict.upper_step. rewrite dict_get_set. simpl in *.
  destruct (String.eqb_spec K (upper k)); [congruence | reflexivity].
Qed.

(** The last entry with a given upper-cased key decides its value. *)
Lemma upper_keys_last (before after : Dict.t V) (k : string) (v : V) :
  Forall (fun kv => upper (fst kv) <> upper k) after ->
  Dict.get (upper k) (Dict.upper_keys upper (before ++ (k, v) :: after)) = Some v.
Proof.
  intros H. unfold Dict.upper_keys.
  rewrite fold_left_app. simpl.
  rewrite (upper_loop_untouched _ _ _ H).
  unfold Dict.upper_step at 1. simpl. rewrite dict_get_set.
  now rewrite String.eqb_refl.
Qed.

(** Every key of an upper-cased dictionary is an upper-casing. *)
Lemma upper_keys_only_upper (d : Dict.t V) (K : string) :
  Str.no_lower K = false -> Dict.get K (Dict.upper_keys upper d) = None.
Proof.
  intros HK. unfold Dict.upper_keys.
  rewrite upper_loop_untouched; [reflexivity|].
  apply Forall_forall. intros kv _. now apply upper_neq.
Qed.

Lemma upper_loop_keeps (d acc : Dict.t V) (K : string) :
  Dict.get K acc <> None -> Dict.get K (fold_left (Dict.upper_step upper) d acc) <> None.
Proof.
  revert acc. induction d as [|[k v] d IH]; simpl; intros acc H; [assumption|].
  apply IH. unfold Dict.upper_step. rewrite dict_get_set.
  destruct (String.eqb K (upper (fst (k, v)))); [discriminate | assumption].
Qed.

Lemma upper_keys_has (d : Dict.t V) (k : string) :
  In k (Dict.keys d) -> Dict.get (upper k) (Dict.upper_keys upper d) <> None.
Proof.
  unfold Dict.upper_keys.
  generalize (@Dict.empty V).
  induction d as [|[k' v'] d IH]; simpl; intros acc H; [contradiction|].
  destruct H as [->|H].
  - apply upper_loop_keeps. unfold Dict.upper_step. simpl.
    rewrite dict_get_set, String.eqb_refl. discriminate.
  - now apply IH.
Qed.

End UpperKeys.

(** ** The print pipeline, step by step *)

Lemma dict_get_renamed (k K : string) (params : Dict.t value) :
  Dict.get K (renamed k params) =
  if String.eqb K k then None
  else if String.eqb K ("map0:" ++ k) then
         match Dict.get k params with Some v => Some v | None => Dict.get K params end
  else Dict.get K params.
Proof.
  unfold renamed. destruct (Dict.get k params) as [v|] eqn:E.
  - now rewrite dict_get_remove, dict_get_set.
  - destruct (String.eqb_spec K k) as [->|]; [assumption|].
    now destruct (String.eqb K ("map0:" ++ k)).
Qed.

Lemma prefix_key_eq (k : string) (params : Dict.t value) :
  prefix_key k params =
  match Dict.get k params with
  | Some _ => Ok (renamed k params)
  | None => Raise (KeyError k)
  end.
Proof.
  unfold prefix_key, renamed, Dict.getitem, Dict.del, Dict.mem.
  destruct (Dict.get k params) as [v|] eqn:E; simpl; [|reflexivity].
  rewrite dict_get_set, E.
  now destruct (String.eqb k _).
Qed.

Lemma prefix_key_if_present_eq (k : string) (params : Dict.t value) :
  prefix_key_if_present k params = Ok (renamed k params).
Proof.
  unfold prefix_key_if_present, Dict.mem. rewrite prefix_key_eq.
  unfold renamed. now destruct (Dict.get k params).
Qed.

(** The five prefixings: the first three need their key. *)
Lemma prefix_keys_eq (params : Dict.t value) :
  prefix_keys params =
  match Dict.get "EXTENT" params, Dict.get "SCALE" params, Dict.get "ROTATION" params with
  | None, _, _ => Raise (KeyError "EXTENT")
  | Some _, None, _ => Raise (KeyError "SCALE")
  | Some _, Some _, None => Raise (KeyError "ROTATION")
  | Some _, Some _, Some _ => Ok (all_renamed params)
  end.
Proof.
  unfold prefix_keys. rewrite prefix_key_eq.
  destruct (Dict.get "EXTENT" params) as [e|] eqn:He; [|reflexivity].
  cbn [rbind]. rewrite prefix_key_eq, dict_get_renamed. cbn [String.eqb Ascii.eqb Bool.eqb append].
  destruct (Dict.get "SCALE" params) as [s|] eqn:Hs; [|reflexivity].
  cbn [rbind]. rewrite prefix_key_eq, !dict_get_renamed. cbn [String.eqb Ascii.eqb Bool.eqb append].
  destruct (Dict.get "ROTATION" params) as [r|] eqn:Hr; [|reflexivity].
  cbn [rbind]. rewrite prefix_key_if_present_eq. cbn [rbind].
  now rewrite prefix_key_if_present_eq.
Qed.

(** Comparisons of key literals compute. *)
Ltac literal_keys := cbn [String.eqb Ascii.eqb Bool.eqb append andb].

(** [K] is none of the literals it is compared with, by [H : ~ In K ...]. *)
Ltac away K H :=
  literal_keys;
  repeat match goal with
         | |- context [String.eqb K ?c] =>
             let E := fresh "E" in
             destruct (String.eqb_spec K c) as [E|E];
             [exfalso; apply H; rewrite E; cbn;
              repeat (first [left; reflexivity | right]) |]
         end;
  try reflexivity.

Section Pipeline.

Context {ext : Externals}.

Lemma with_layers_eq (params : Dict.t string) :
  with_layers params =
  Ok (Dict.set "OPACITIES" (opacities (getenv "LANDREG_PRINT_LAYERS" "Grundstuecke"))
        (Dict.set "LAYERS" (getenv "LANDREG_PRINT_LAYERS" "Grundstuecke") params)).
Proof.
  unfold with_layers, Dict.getitem. now rewrite dict_get_set.
Qed.

(** [build] as one case analysis: the merge and the parsing leave the world
    alone; the connection is taken before the query and given back only when
    the query returns. *)
Lemma build_eq (pairs : list (string * string)) (w : world) :
  build pairs w =
  match with_layers (merged_params pairs) with
  | Raise e => (Raise e, w)
  | Ok params =>
    match extent_center params with
    | Raise e => (Raise e, w)
    | Ok xy =>
      match db_connect with
      | Raise e => (Raise e, w)
      | Ok _ =>
        let q := {| q_sql := print_info_sql
                               (getenv "LANDREG_PRINTINFO_TABLE" "agi_nfgeometer_pub.print_info");
                    q_x := fst xy; q_y := snd xy |} in
        match db_fetchone (q_sql q) (fst xy) (snd xy) with
        | Raise e => (Raise e, {| checked_out := S (checked_out w);
                                  executed := executed w ++ [q] |})
        | Ok sql_result =>
            (prefix_keys (enrich sql_result (as_values params)),
             {| checked_out := checked_out w; executed := executed w ++ [q] |})
        end
      end
    end
  end.
Proof.
  unfold build, bind, lift, connect, execute_fetchone, close.
  destruct (with_layers (merged_params pairs)); [|reflexivity].
  destruct (extent_center a); [|reflexivity].
  destruct db_connect; [|reflexivity].
  cbn. destruct (db_fetchone _ _ _); reflexivity.
Qed.

Lemma enriched_get (sql_result : option row) (layers o K : string)
    (merged : Dict.t string) :
  ~ In K (injected_keys ++ parcel_keys) ->
  Dict.get K (enrich sql_result
                (as_values (Dict.set "OPACITIES" o (Dict.set "LAYERS" layers merged))))
  = option_map Str (Dict.get K merged).
Proof.
  intros H. destruct sql_result as [r|]; unfold enrich, as_values;
    rewrite ?dict_get_set, dict_get_map_values, !dict_get_set; away K H.
Qed.

(** A finished request comes from a merged mapping holding the three keys,
    which was enriched and then prefixed. *)
Lemma build_ok (pairs : list (string * string)) (w w' : world) (params : Dict.t value) :
  build pairs w = (Ok params, w') ->
  exists sql_result e s r,
    Dict.get "EXTENT" (merged_params pairs) = Some e /\
    Dict.get "SCALE" (merged_params pairs) = Some s /\
    Dict.get "ROTATION" (merged_params pairs) = Some r /\
    params =
    all_renamed
      (enrich sql_result
         (as_values
            (Dict.set "OPACITIES" (opacities (getenv "LANDREG_PRINT_LAYERS" "Grundstuecke"))
               (Dict.set "LAYERS" (getenv "LANDREG_PRINT_LAYERS" "Grundstuecke")
                  (merged_params pairs))))).
Proof.
  rewrite build_eq, with_layers_eq.
  destruct (extent_center _); [|intros [=]].
  destruct db_connect; [|intros [=]].
  cbn zeta. destruct (db_fetchone _ _ _) as [sql_result|]; [|intros [=]].
  rewrite prefix_keys_eq, !enriched_get by (cbn; intuition discriminate).
  destruct (Dict.get "EXTENT" _) as [e|]; [|intros [=]].
  destruct (Dict.get "SCALE" _) as [sc|]; [|intros [=]].
  destruct (Dict.get "ROTATION" _) as [r|]; [|intros [=]].
  cbn [option_map]. intros [= <- _]. now exists sql_result, e, sc, r.
Qed.

(** ** The finished request *)

(** C5. On every payload on which [build] succeeds, the merged mapping
    (with its keys upper-cased by [str.upper]) held [EXTENT], [SCALE] and
    [ROTATION], the finished request holds their values under [map0:EXTENT],
    [map0:SCALE] and [map0:ROTATION] and holds none of the three bare keys;
    [map0:GRID_INTERVAL_X] and [map0:GRID_INTERVAL_Y] are present exactly
    when the bare key was, with its value, and the bare keys are gone. *)
Theorem build_prefixes_geometry (pairs : list (string * string)) (w w' : world)
    (params : Dict.t value) :
  build pairs w = (Ok params, w') ->
  let merged := merged_params pairs in
  (exists e s r,
     Dict.get "EXTENT" merged = Some e /\ Dict.get "map0:EXTENT" params = Some (Str e) /\
     Dict.get "SCALE" merged = Some s /\ Dict.get "map0:SCALE" params = Some (Str s) /\
     Dict.get "ROTATION" merged = Some r /\
     Dict.get "map0:ROTATION" params = Some (Str r)) /\
  Dict.get "EXTENT" params = None /\
  Dict.get "SCALE" params = None /\
  Dict.get "ROTATION" params = None /\
  Dict.get "map0:GRID_INTERVAL_X" params
  = option_map Str (Dict.get "GRID_INTERVAL_X" merged) /\
  Dict.get "GRID_INTERVAL_X" params = None /\
  Dict.get "map0:GRID_INTERVAL_Y" params
  = option_map Str (Dict.get "GRID_INTERVAL_Y" merged) /\
  Dict.get "GRID_INTERVAL_Y" params = None.
Proof.
  intros H merged. subst merged.
  destruct (build_ok _ _ _ _ H) as (sql_result & e & s & r & He & Hs & Hr & ->).
  unfold all_renamed. cbn [fold_left geometry_keys].
  assert (Hnone : forall K, Str.no_lower K = false ->
                           Dict.get K (merged_params pairs) = None)
    by (intros K HK; now apply upper_keys_only_upper).
  repeat split.
  - exists e, s, r. repeat split; try assumption.
    all: rewrite !dict_get_renamed; literal_keys;
      rewrite !enriched_get by (cbn; intuition discriminate).
    + now rewrite He.
    + now rewrite Hs.
    + now rewrite Hr.
  - rewrite !dict_get_renamed; literal_keys; reflexivity.
  - rewrite !dict_get_renamed; literal_keys; reflexivity.
  - rewrite !dict_get_renamed; literal_keys; reflexivity.
  - rewrite !dict_get_renamed; literal_keys.
    rewrite !enriched_get by (cbn; intuition discriminate).
    rewrite (Hnone "map0:GRID_INTERVAL_X") by reflexivity.
    now destruct (Dict.get "GRID_INTERVAL_X" _).
  - rewrite !dict_get_renamed; literal_keys; reflexivity.
  - rewrite !dict_get_renamed; literal_keys.
    rewrite !enriched_get by (cbn; intuition discriminate).
    rewrite (Hnone "map0:GRID_INTERVAL_Y") by reflexivity.
    now destruct (Dict.get "GRID_INTERVAL_Y" _).
  - rewrite !dict_get_renamed; literal_keys; reflexivity.
Qed.

Lemma opacities_split (layers : string) :
  Str.split "," (opacities layers) = repeat "255" (length (Str.split "," layers)).
Proof.
  unfold opacities.
  assert (E : map (fun _ : string => "255") (Str.split "," layers)
              = repeat "255" (length (Str.split "," layers))).
  { induction (Str.split "," layers) as [|p l IH]; simpl; [reflexivity | now rewrite IH]. }
  rewrite E. apply split_join.
  - pose proof (split_length "," layers) as L.
    destruct (length (Str.split "," layers)); [lia | discriminate].
  - apply Forall_forall. intros p Hp. apply repeat_spec in Hp. now subst p.
Qed.

(** C6. In every request [build] finishes, [LAYERS] is the configured layer
    list, and [OPACITIES], split at its commas, is the entry ["255"] once for
    each comma-separated entry of [LAYERS]. *)
Theorem build_layers_opacities (pairs : list (string * string)) (w w' : world)
    (params : Dict.t value) :
  build pairs w = (Ok params, w') ->
  let layers := getenv "LANDREG_PRINT_LAYERS" "Grundstuecke" in
  Dict.get "LAYERS" params = Some (Str layers) /\
  exists o, Dict.get "OPACITIES" params = Some (Str o) /\
            o = Str.join "," (repeat "255" (length (Str.split "," layers))) /\
            Str.split "," o = repeat "255" (length (Str.split "," layers)).
Proof.
  intros H layers. subst layers.
  destruct (build_ok _ _ _ _ H) as (sql_result & e & s & r & He & Hs & Hr & ->).
  unfold all_renamed. cbn [fold_left geometry_keys].
  split; [|exists (opacities (getenv "LANDREG_PRINT_LAYERS" "Grundstuecke")); split; [|split]].
  - rewrite !dict_get_renamed; literal_keys.
    destruct sql_result; unfold enrich, as_values;
      rewrite ?dict_get_set, dict_get_map_values, !dict_get_set; literal_keys;
      reflexivity.
  - rewrite !dict_get_renamed; literal_keys.
    destruct sql_result; unfold enrich, as_values;
      rewrite ?dict_get_set, dict_get_map_values, !dict_get_set; literal_keys;
      reflexivity.
  - unfold opacities. f_equal.
    induction (Str.split "," _) as [|p l IH]; simpl; [reflexivity | now rewrite IH].
  - apply opacities_split.
Qed.

Lemma of_pairs_nodup (pairs : list (string * string)) :
  NoDup (Dict.keys (Dict.of_pairs pairs)).
Proof. apply dict_update_nodup. constructor. Qed.

(** A caller parameter is an entry of the merged mapping: it wins over a
    default of the same key. *)
Lemma caller_in_merged (pairs : list (string * string)) (k v : string) :
  Dict.get k (Dict.of_pairs pairs) = Some v ->
  exists before after, merged_items pairs = before ++ (k, v) :: after.
Proof.
  intros H. apply in_split, dict_get_in. unfold merged_items.
  rewrite dict_get_update by apply of_pairs_nodup. now rewrite H.
Qed.

(** Outside the keys the handler writes, the finished request is the
    upper-cased merged mapping. *)
Lemma untouched_keys (pairs : list (string * string)) (w w' : world)
    (params : Dict.t value) (K : string) :
  build pairs w = (Ok params, w') ->
  ~ In K (geometry_keys ++ injected_keys ++ parcel_keys ++ prefixed_keys) ->
  Dict.get K params = option_map Str (Dict.get K (merged_params pairs)).
Proof.
  intros H HK.
  destruct (build_ok _ _ _ _ H) as (sql_result & e & s & r & He & Hs & Hr & ->).
  unfold all_renamed. cbn [fold_left geometry_keys].
  rewrite !dict_get_renamed. away K HK.
  apply enriched_get. intros HI. apply HK. cbn in *. tauto.
Qed.

(** C10, amended. On every payload on which [build] succeeds: a key that is
    none of the seven listed ones, none of the five parcel fields and none
    of the [map0:] keys has in the finished request what it has in the
    merged mapping with its keys upper-cased by [str.upper], a value or
    none; every caller parameter is an entry of the merged mapping; and an
    entry after which no entry has the same upper-cased key, and whose
    upper-cased key is none of the seven and none of the five, is forwarded
    under its upper-cased key with its value. *)
Theorem build_frame (pairs : list (string * string)) (w w' : world)
    (params : Dict.t value) :
  build pairs w = (Ok params, w') ->
  (forall K, ~ In K (geometry_keys ++ injected_keys ++ parcel_keys ++ prefixed_keys) ->
     Dict.get K params = option_map Str (Dict.get K (merged_params pairs))) /\
  (forall k v, Dict.get k (Dict.of_pairs pairs) = Some v ->
     exists before after, merged_items pairs = before ++ (k, v) :: after) /\
  (forall before k v after,
     merged_items pairs = before ++ (k, v) :: after ->
     Forall (fun kv => upper (fst kv) <> upper k) after ->
     ~ In (upper k) (geometry_keys ++ injected_keys ++ parcel_keys) ->
     Dict.get (upper k) params = Some (Str v)).
Proof.
  intros H.
  split; [intros K HK; exact (untouched_keys _ _ _ _ _ H HK) |
          split; [intros k v; apply caller_in_merged|]].
  intros before k v after Hsplit Hlast Hk.
  rewrite (untouched_keys _ _ _ _ _ H).
  - unfold merged_params. fold (merged_items pairs). rewrite Hsplit.
    now rewrite upper_keys_last.
  - intros HI. rewrite !in_app_iff in HI.
    destruct HI as [HI|[HI|[HI|HI]]].
    1-3: apply Hk; rewrite !in_app_iff; tauto.
    cbn in HI.
    repeat (destruct HI as [HI|HI]; [symmetry in HI; revert HI; now apply upper_neq|]).
    exact HI.
Qed.

(** ** The outcome of [build] *)

Lemma float_cases (s : string) :
  (exists f, float_of_string s = Some f /\ float s = Ok f) \/
  (float_of_string s = None /\ float s = Raise (ValueError s)).
Proof.
  unfold float. destruct (float_of_string s) as [f|]; [left; now exists f | now right].
Qed.

(** Converting the pieces: all of them, or a [ValueError] at the first that
    is no number. *)
Lemma map_res_float (pieces : list string) :
  (Forall is_number pieces /\
   exists fs, map_res float pieces = Ok fs /\
              Forall2 (fun s f => float_of_string s = Some f) pieces fs) \/
  (~ Forall is_number pieces /\ exists p, map_res float pieces = Raise (ValueError p)).
Proof.
  induction pieces as [|p pieces IH]; simpl.
  - left. split; [constructor | exists []; split; [reflexivity | constructor]].
  - destruct (float_cases p) as [(f & Hf & ->)|[Hf ->]]; cbn [rbind].
    + destruct IH as [(Hall & fs & -> & Hfs)|(Hnot & q & ->)]; cbn [rbind].
      * left. split; [constructor; [unfold is_number; congruence | assumption]|].
        exists (f :: fs). split; [reflexivity | now constructor].
      * right. split; [|now exists q].
        intros Hall. inversion Hall. contradiction.
    + right. split; [|now exists p].
      intros Hall. inversion Hall as [|? ? Hp _]. now apply Hp.
Qed.

Lemma extent_center_missing (params : Dict.t string) :
  Dict.get "EXTENT" params = None ->
  extent_center params = Raise (KeyError "EXTENT").
Proof. intros H. unfold extent_center, Dict.getitem. now rewrite H. Qed.

Lemma extent_center_unreadable (params : Dict.t string) (e : string) :
  Dict.get "EXTENT" params = Some e -> ~ extent_readable e ->
  MalformedParameterError (extent_center params).
Proof.
  intros H Hno. unfold extent_center, Dict.getitem. rewrite H. cbn [rbind].
  destruct (map_res_float (Str.split "," e)) as [(Hall & fs & -> & Hfs)|(_ & p & ->)];
    cbn [rbind]; [|exact I].
  assert (L : length fs < 4).
  { rewrite <- (Forall2_length Hfs).
    destruct (Nat.lt_ge_cases (length (Str.split "," e)) 4) as [|G]; [assumption|].
    exfalso. apply Hno. now split. }
  destruct fs as [|f0 [|f1 [|f2 [|f3 fs]]]]; cbn in *; try exact I. lia.
Qed.

Lemma extent_center_four (params : Dict.t string) (e s0 s1 s2 s3 : string) (rest : list string)
    (minx miny maxx maxy : PrimFloat.float) :
  Dict.get "EXTENT" params = Some e ->
  Str.split "," e = s0 :: s1 :: s2 :: s3 :: rest ->
  float_of_string s0 = Some minx -> float_of_string s1 = Some miny ->
  float_of_string s2 = Some maxx -> float_of_string s3 = Some maxy ->
  Forall is_number rest ->
  extent_center params = Ok ((0.5 * (minx + maxx))%float, (0.5 * (miny + maxy))%float).
Proof.
  intros H Hs H0 H1 H2 H3 Hrest.
  unfold extent_center, Dict.getitem. rewrite H. cbn [rbind]. rewrite Hs.
  cbn [map_res]. unfold float at 1 2 3 4. rewrite H0, H1, H2, H3. cbn [rbind].
  destruct (map_res_float rest) as [(_ & fs & -> & _)|(Hnot & _)]; [|contradiction].
  reflexivity.
Qed.

Lemma extent_center_readable (params : Dict.t string) (e : string) :
  Dict.get "EXTENT" params = Some e -> extent_readable e ->
  succeeds (extent_center params).
Proof.
  intros H [L Hall].
  destruct (Str.split "," e) as [|s0 [|s1 [|s2 [|s3 rest]]]] eqn:Hs; cbn in L; try lia.
  inversion Hall as [|? ? N0 Hall1]; subst.
  inversion Hall1 as [|? ? N1 Hall2]; subst.
  inversion Hall2 as [|? ? N2 Hall3]; subst.
  inversion Hall3 as [|? ? N3 Hrest]; subst.
  unfold is_number in N0, N1, N2, N3.
  destruct (float_of_string s0) as [f0|] eqn:H0; [|contradiction].
  destruct (float_of_string s1) as [f1|] eqn:H1; [|contradiction].
  destruct (float_of_string s2) as [f2|] eqn:H2; [|contradiction].
  destruct (float_of_string s3) as [f3|] eqn:H3; [|contradiction].
  now rewrite (extent_center_four _ _ _ _ _ _ _ _ _ _ _ H Hs H0 H1 H2 H3 Hrest).
Qed.

Lemma layered_get (layers o K : string) (merged : Dict.t string) :
  ~ In K injected_keys ->
  Dict.get K (Dict.set "OPACITIES" o (Dict.set "LAYERS" layers merged)) = Dict.get K merged.
Proof. intros H. rewrite !dict_get_set. away K H. Qed.

(** C1, amended. [build] fails with the missing-parameter error when
    [EXTENT] is absent after the merge; otherwise with the malformed-parameter
    error when [EXTENT] has fewer than four comma-separated pieces or a piece
    that is no float; otherwise, when the database connects and the lookup
    returns, with the missing-parameter error when [SCALE] or [ROTATION] is
    absent, and it succeeds when both are present. *)
Theorem build_outcome (pairs : list (string * string)) (w : world) :
  let merged := merged_params pairs in
  let outcome := fst (build pairs w) in
  (Dict.get "EXTENT" merged = None -> outcome = Raise (KeyError "EXTENT")) /\
  (forall e, Dict.get "EXTENT" merged = Some e -> ~ extent_readable e ->
     MalformedParameterError outcome) /\
  (forall e, Dict.get "EXTENT" merged = Some e -> extent_readable e ->
     succeeds db_connect -> (forall sql x y, succeeds (db_fetchone sql x y)) ->
     (Dict.get "SCALE" merged = None \/ Dict.get "ROTATION" merged = None ->
      MissingParameterError outcome) /\
     (Dict.get "SCALE" merged <> None -> Dict.get "ROTATION" merged <> None ->
      succeeds outcome)).
Proof.
  intros merged outcome. subst merged outcome.
  rewrite build_eq, with_layers_eq.
  set (params := Dict.set "OPACITIES" _ _).
  assert (G : forall K, ~ In K injected_keys ->
                        Dict.get K params = Dict.get K (merged_params pairs))
    by (intros K HK; now apply layered_get).
  assert (GE : forall sql_result K, ~ In K (injected_keys ++ parcel_keys) ->
      Dict.get K (enrich sql_result (as_values params))
      = option_map Str (Dict.get K (merged_params pairs)))
    by (intros r K HK; now apply enriched_get).
  split; [|split].
  - intros He. rewrite extent_center_missing; [reflexivity|].
    rewrite G; [assumption | cbn; intuition discriminate].
  - intros e He Hno.
    assert (He' : Dict.get "EXTENT" params = Some e)
      by (rewrite G; [assumption | cbn; intuition discriminate]).
    pose proof (extent_center_unreadable _ _ He' Hno) as HM.
    destruct (extent_center params) as [xy|err]; [contradiction | exact HM].
  - intros e He Hread Hconn Hquery.
    assert (He' : Dict.get "EXTENT" params = Some e)
      by (rewrite G; [assumption | cbn; intuition discriminate]).
    pose proof (extent_center_readable _ _ He' Hread) as HS.
    destruct (extent_center params) as [xy|err]; [|contradiction].
    destruct db_connect; [|contradiction]. cbn zeta. cbn [q_sql].
    specialize (Hquery (print_info_sql (getenv "LANDREG_PRINTINFO_TABLE"
                                          "agi_nfgeometer_pub.print_info"))
                       (fst xy) (snd xy)).
    destruct (db_fetchone _ _ _) as [sql_result|]; [|contradiction].
    cbn [fst]. rewrite prefix_keys_eq, !GE by (cbn; intuition discriminate).
    rewrite He. cbn [option_map]. split.
    + intros [-> | ->]; [exact I|].
      now destruct (Dict.get "SCALE" _).
    + intros Hs Hr.
      destruct (Dict.get "SCALE" _); [|contradiction].
      destruct (Dict.get "ROTATION" _); [exact I | contradiction].
Qed.

(** ** The spatial lookup and the connection *)

(** C7. On every print call whose [EXTENT] reads as [minx,miny,maxx,maxy],
    the statements executed are: the containment query with SRID 2056, bound
    to [x = 0.5 * (minx + maxx)] and [y = 0.5 * (miny + maxy)] (the halving
    written as the source writes it), once, when the connection is obtained,
    and nothing otherwise; for [EXTENT = 10,20,30,40] the point is
    [(20, 30)]. *)
Theorem lookup_at_centroid (pairs : list (string * string)) (w : world) :
  (forall e s0 s1 s2 s3 rest minx miny maxx maxy,
     Dict.get "EXTENT" (merged_params pairs) = Some e ->
     Str.split "," e = s0 :: s1 :: s2 :: s3 :: rest ->
     float_of_string s0 = Some minx -> float_of_string s1 = Some miny ->
     float_of_string s2 = Some maxx -> float_of_string s3 = Some maxy ->
     Forall is_number rest ->
     executed (snd (build pairs w)) =
     executed w ++
     match db_connect with
     | Ok _ =>
       [{| q_sql := "SELECT nfgeometer, lieferdatum, anschrift, kontakt, gemeinde FROM "
                    ++ getenv "LANDREG_PRINTINFO_TABLE" "agi_nfgeometer_pub.print_info"
                    ++ " WHERE ST_CONTAINS(geometrie, ST_SetSRID(ST_MakePoint(:x, :y), 2056));";
           q_x := (0.5 * (minx + maxx))%float;
           q_y := (0.5 * (miny + maxy))%float |}]
     | Raise _ => []
     end) /\
  (Dict.get "EXTENT" (merged_params pairs) = Some "10,20,30,40" ->
   float_of_string "10" = Some 10%float -> float_of_string "20" = Some 20%float ->
   float_of_string "30" = Some 30%float -> float_of_string "40" = Some 40%float ->
   exists sql,
     executed (snd (build pairs w)) =
     executed w ++
     match db_connect with
     | Ok _ => [{| q_sql := sql; q_x := 20%float; q_y := 30%float |}]
     | Raise _ => []
     end).
Proof.
  assert (General : forall e s0 s1 s2 s3 rest minx miny maxx maxy,
     Dict.get "EXTENT" (merged_params pairs) = Some e ->
     Str.split "," e = s0 :: s1 :: s2 :: s3 :: rest ->
     float_of_string s0 = Some minx -> float_of_string s1 = Some miny ->
     float_of_string s2 = Some maxx -> float_of_string s3 = Some maxy ->
     Forall is_number rest ->
     executed (snd (build pairs w)) =
     executed w ++
     match db_connect with
     | Ok _ =>
       [{| q_sql := print_info_sql
                      (getenv "LANDREG_PRINTINFO_TABLE" "agi_nfgeometer_pub.print_info");
           q_x := (0.5 * (minx + maxx))%float;
           q_y := (0.5 * (miny + maxy))%float |}]
     | Raise _ => []
     end).
  { intros e s0 s1 s2 s3 rest minx miny maxx maxy He Hs H0 H1 H2 H3 Hrest.
    rewrite build_eq, with_layers_eq.
    rewrite (extent_center_four _ e s0 s1 s2 s3 rest minx miny maxx maxy);
      try assumption.
    - destruct db_connect; [|cbn; now rewrite app_nil_r].
      cbn. now destruct (db_fetchone _ _ _).
    - rewrite layered_get; [assumption | cbn; intuition discriminate]. }
  split; [exact General|].
  intros He H10 H20 H30 H40. eexists.
  rewrite (General "10,20,30,40" "10" "20" "30" "40" [] _ _ _ _ He eq_refl
             H10 H20 H30 H40 (Forall_nil _)).
  destruct db_connect; reflexivity.
Qed.

(** When the query returns, every exit of [build] gives the connection
    back. *)
Lemma released_when_query_returns (pairs : list (string * string)) (w : world) :
  (forall sql x y, succeeds (db_fetchone sql x y)) ->
  checked_out (snd (build pairs w)) = checked_out w.
Proof.
  intros Hq. rewrite build_eq.
  destruct (with_layers _); [|reflexivity].
  destruct (extent_center _) as [xy|]; [|reflexivity].
  destruct db_connect; [|reflexivity].
  cbn zeta. cbn [q_sql].
  specialize (Hq (print_info_sql (getenv "LANDREG_PRINTINFO_TABLE"
                                    "agi_nfgeometer_pub.print_info")) (fst xy) (snd xy)).
  destruct (db_fetchone _ _ _); [reflexivity | contradiction].
Qed.

(** When the query raises, its error leaves [build] with the connection
    still checked out. *)
Lemma held_when_query_raises (pairs : list (string * string)) (w : world)
    (xy : PrimFloat.float * PrimFloat.float) (err : exn) :
  (forall params, with_layers (merged_params pairs) = Ok params ->
                  extent_center params = Ok xy) ->
  succeeds db_connect ->
  db_fetchone (print_info_sql (getenv "LANDREG_PRINTINFO_TABLE"
                                 "agi_nfgeometer_pub.print_info")) (fst xy) (snd xy)
  = Raise err ->
  fst (build pairs w) = Raise err /\
  checked_out (snd (build pairs w)) = S (checked_out w).
Proof.
  intros Hxy Hconn Hq. rewrite build_eq.
  destruct (with_layers _) as [params|] eqn:E;
    [|rewrite with_layers_eq in E; discriminate].
  rewrite (Hxy _ eq_refl).
  destruct db_connect; [|contradiction].
  cbn zeta. cbn [q_sql]. rewrite Hq. now split.
Qed.

(** ** The response *)

Lemma merged_has_format (pairs : list (string * string)) :
  Dict.get "FORMAT" (merged_params pairs) <> None.
Proof.
  assert (U : upper "FORMAT" = "FORMAT") by (now rewrite upper_ascii).
  rewrite <- U. apply upper_keys_has.
  apply dict_get_none_keys_not.
  rewrite dict_get_update by apply of_pairs_nodup.
  now destruct (Dict.get "FORMAT" _).
Qed.

(** The names of the three headers involved compare as ASCII text. *)
Lemma header_names :
  Headers.same "content-type" "Content-Type" = true /\
  Headers.same "content-disposition" "content-type" = false /\
  Headers.same "content-type" "content-disposition" = false.
Proof.
  unfold Headers.same.
  rewrite (lower_ascii "content-type" eq_refl), (lower_ascii "Content-Type" eq_refl),
    (lower_ascii "content-disposition" eq_refl).
  repeat split; reflexivity.
Qed.

Lemma header_same_refl (k : string) : Headers.same k k = true.
Proof. unfold Headers.same. apply String.eqb_refl. Qed.

(** The headers of the response after the one or two assignments. *)
Lemma response_headers (ct disposition : string) :
  Headers.replace "content-type" ct [("Content-Type", "text/html; charset=utf-8")]
  = [("content-type", ct)] /\
  Headers.replace "content-disposition" disposition [("content-type", ct)]
  = [("content-type", ct); ("content-disposition", disposition)] /\
  Headers.get "content-type" [("content-type", ct)] = Some ct /\
  Headers.get "content-disposition" [("content-type", ct)] = None /\
  Headers.get "content-type" [("content-type", ct); ("content-disposition", disposition)]
  = Some ct /\
  Headers.get "content-disposition"
    [("content-type", ct); ("content-disposition", disposition)] = Some disposition.
Proof.
  destruct header_names as (N1 & N2 & N3).
  cbn [Headers.replace Headers.get filter fst].
  rewrite N1, N2, !header_same_refl. repeat split; reflexivity.
Qed.

(** What [forward] does with an answer that has a content type, for a
    request whose [FORMAT] is a [str]. *)
Lemma forward_answered (params : Dict.t value) (req : upstream) (ct fmt : string) :
  requests_post (project_url (getenv "LANDREG_PROJECT" "grundbuch")) 120 params = Ok req ->
  Headers.get "content-type" (up_headers req) = Some ct ->
  Dict.get "FORMAT" params = Some (Str fmt) ->
  forward params =
  if Str.has_newline ct then Raise (ValueError ct)
  else if String.eqb ct "application/pdf" then
    if Str.has_newline ("attachment; filename=" ++ getenv "LANDREG_PROJECT" "grundbuch"
                        ++ "." ++ lower fmt)
    then Raise (ValueError ("attachment; filename=" ++ getenv "LANDREG_PROJECT" "grundbuch"
                            ++ "." ++ lower fmt)%string)
    else Ok {| status := status_code req;
               headers := [("content-type", ct);
                           ("content-disposition",
                            ("attachment; filename=" ++ getenv "LANDREG_PROJECT" "grundbuch"
                             ++ "." ++ lower fmt)%string)];
               body := iter_content req 1024 |}
  else Ok {| status := status_code req;
             headers := [("content-type", ct)];
             body := iter_content req 1024 |}.
Proof.
  intros P C F.
  destruct (response_headers ct ("attachment; filename="
              ++ getenv "LANDREG_PROJECT" "grundbuch" ++ "." ++ lower fmt))
    as (R1 & R2 & _).
  unfold forward, Headers.getitem, Headers.set, Dict.getitem.
  rewrite P. cbn [rbind]. rewrite C. cbn [rbind headers status body].
  destruct (Str.has_newline ct); [reflexivity|].
  cbn [rbind headers status body]. rewrite R1.
  destruct (String.eqb ct "application/pdf"); [|reflexivity].
  rewrite F. cbn [rbind value_lower].
  destruct (Str.has_newline _); [reflexivity|].
  cbn [rbind]. now rewrite R2.
Qed.

Lemma post_of_build (pairs : list (string * string)) (w : world) :
  post pairs w =
  match build pairs w with
  | (Ok params, w') => (forward params, w')
  | (Raise e, w') => (Raise e, w')
  end.
Proof.
  unfold post, bind, lift. now destruct (build pairs w) as [[params|e] w'].
Qed.

(** A finished request has a [FORMAT], a [str]: the caller's or the
    default. *)
Lemma finished_format (pairs : list (string * string)) (w w' : world)
    (params : Dict.t value) :
  build pairs w = (Ok params, w') ->
  exists fmt, Dict.get "FORMAT" (merged_params pairs) = Some fmt /\
              Dict.get "FORMAT" params = Some (Str fmt).
Proof.
  intros B.
  assert (F : Dict.get "FORMAT" params
              = option_map Str (Dict.get "FORMAT" (merged_params pairs)))
    by (apply (untouched_keys _ _ _ _ _ B); cbn; intuition discriminate).
  pose proof (merged_has_format pairs) as HF.
  destruct (Dict.get "FORMAT" (merged_params pairs)) as [fmt|]; [|contradiction].
  now exists fmt.
Qed.

(** C9. Every response [post] returns carries the status code and the
    content type of the upstream response, and carries a content disposition,
    [attachment; filename=<project>.<FORMAT in lower case>], exactly when the
    upstream content type is the string [application/pdf]. And responses are
    returned: whenever the request is built and the engine answers with a
    content type, PDF or not, [post] returns a response, provided no header
    value to be set holds a line break. *)
Theorem post_response (pairs : list (string * string)) (w : world) :
  (forall resp w',
     post pairs w = (Ok resp, w') ->
     exists params req ct fmt,
       build pairs w = (Ok params, w') /\
       requests_post (project_url (getenv "LANDREG_PROJECT" "grundbuch")) 120 params
       = Ok req /\
       Headers.get "content-type" (up_headers req) = Some ct /\
       Dict.get "FORMAT" params = Some (Str fmt) /\
       Dict.get "FORMAT" (merged_params pairs) = Some fmt /\
       status resp = status_code req /\
       Headers.get "content-type" (headers resp) = Some ct /\
       Headers.get "content-disposition" (headers resp) =
         (if String.eqb ct "application/pdf"
          then Some ("attachment; filename=" ++ getenv "LANDREG_PROJECT" "grundbuch"
                     ++ "." ++ lower fmt)%string
          else None)) /\
  (forall params w' req ct fmt,
     build pairs w = (Ok params, w') ->
     requests_post (project_url (getenv "LANDREG_PROJECT" "grundbuch")) 120 params
     = Ok req ->
     Headers.get "content-type" (up_headers req) = Some ct ->
     Dict.get "FORMAT" (merged_params pairs) = Some fmt ->
     Str.has_newline ct = false ->
     (ct = "application/pdf" ->
      Str.has_newline ("attachment; filename=" ++ getenv "LANDREG_PROJECT" "grundbuch"
                       ++ "." ++ lower fmt) = false) ->
     exists resp, post pairs w = (Ok resp, w')).
Proof.
  split.
  - intros resp w' H. rewrite post_of_build in H.
    destruct (build pairs w) as [[params|err] w1] eqn:B; [|discriminate].
    destruct (finished_format _ _ _ _ B) as (fmt & M & F).
    assert (Hf : forward params = Ok resp /\ w1 = w') by (now injection H).
    destruct Hf as [Hf <-]. clear H.
    assert (A : exists req ct,
               requests_post (project_url (getenv "LANDREG_PROJECT" "grundbuch")) 120 params
               = Ok req /\
               Headers.get "content-type" (up_headers req) = Some ct).
    { unfold forward, Headers.getitem in Hf.
      destruct (requests_post _ _ _) as [req|] eqn:P; [|discriminate].
      cbn [rbind] in Hf.
      destruct (Headers.get "content-type" (up_headers req)) as [ct|] eqn:C;
        [|discriminate].
      now exists req, ct. }
    destruct A as (req & ct & P & C).
    destruct (response_headers ct ("attachment; filename="
                ++ getenv "LANDREG_PROJECT" "grundbuch" ++ "." ++ lower fmt))
      as (_ & _ & G1 & G2 & G3 & G4).
    rewrite (forward_answered _ _ _ _ P C F) in Hf.
    exists params, req, ct, fmt.
    destruct (Str.has_newline ct); [discriminate|].
    destruct (String.eqb ct "application/pdf").
    + destruct (Str.has_newline _); [discriminate|].
      injection Hf as <-. now repeat split.
    + injection Hf as <-. now repeat split.
  - intros params w' req ct fmt B P C M Nct Nd.
    destruct (finished_format _ _ _ _ B) as (fmt' & M' & F).
    assert (fmt' = fmt) by congruence. subst fmt'.
    rewrite post_of_build, B, (forward_answered _ _ _ _ P C F), Nct.
    destruct (String.eqb_spec ct "application/pdf") as [E|N].
    + rewrite (Nd E). now eexists.
    + now eexists.
Qed.

End Pipeline.

(** ** The template catalogue *)

Section Catalogue.

Context {ext : Externals}.

Lemma template_entry_describes (template : node) (l : layout) :
  describes template l -> template_entry template = Ok l.
Proof.
  intros (cm & [rest Hcm] & Hw & Hh & Hn & Hname & Hd).
  unfold template_entry. rewrite Hcm. cbn [item0 rbind].
  unfold float. rewrite Hw, Hh. cbn [rbind].
  destruct l as [n [mw mh mn] d]. cbn in *. now subst.
Qed.

Lemma framed_described (template : node) :
  framed template -> exists l, describes template l.
Proof.
  intros (cm & mw & mh & Hcm & Hw & Hh).
  exists {| layout_name := Dom.getAttribute template "name";
            layout_map := {| map_width := mw; map_height := mh;
                             map_name := Dom.getAttribute cm "name" |};
            layout_default := String.eqb (Dom.getAttribute template "name")
                                         DEFAULT_LANDREG_LAYOUT |}.
  exists cm. cbn. repeat split; assumption.
Qed.

Lemma all_framed_described (templates : list node) :
  Forall framed templates -> exists layouts, Forall2 describes templates layouts.
Proof.
  induction 1 as [|t ts Ht _ [ls IH]].
  - exists []. constructor.
  - destruct (framed_described _ Ht) as [l Hl]. exists (l :: ls). now constructor.
Qed.

Lemma template_entry_defective (template : node) :
  defective template -> exists e, template_entry template = Raise e.
Proof.
  unfold template_entry.
  intros [Hno | (cm & [rest Hcm] & Hbad)].
  - unfold lacks in Hno. rewrite Hno. now exists IndexError.
  - rewrite Hcm. cbn [item0 rbind]. unfold float.
    destruct Hbad as [Hw | Hh].
    + rewrite Hw. now eexists.
    + rewrite Hh.
      destruct (float_of_string (Dom.getAttribute cm "width")); cbn [rbind]; now eexists.
Qed.

(** The loop appends the descriptors of the templates it gets through. *)
Lemma for_templates_all (templates : list node) (entries layouts : list layout) :
  Forall2 describes templates entries ->
  for_templates templates layouts = (Ok tt, layouts ++ entries).
Proof.
  intros H. revert layouts.
  induction H as [|t l ts ls Ht _ IH]; intros layouts; simpl.
  - now rewrite app_nil_r.
  - rewrite (template_entry_describes _ _ Ht), IH, <- app_assoc. reflexivity.
Qed.

(** It stops at the first template it cannot describe, with what it has. *)
Lemma for_templates_stop (good rest : list node) (bad : node)
    (entries layouts : list layout) :
  Forall2 describes good entries -> defective bad ->
  exists e, for_templates (good ++ bad :: rest) layouts = (Raise e, layouts ++ entries).
Proof.
  intros H Hbad. revert layouts.
  induction H as [|t l ts ls Ht _ IH]; intros layouts; simpl.
  - destruct (template_entry_defective _ Hbad) as [e ->].
    exists e. now rewrite app_nil_r.
  - rewrite (template_entry_describes _ _ Ht).
    destruct (IH (layouts ++ [l])) as [e ->]. exists e. now rewrite <- app_assoc.
Qed.

Lemma composer_templates_nesting (capabilities templates : node) :
  nesting capabilities templates -> composer_templates capabilities = Ok templates.
Proof.
  intros (root & capability & [r1 H1] & [r2 H2] & [r3 H3]).
  unfold composer_templates. rewrite H1. cbn [item0 rbind].
  rewrite H2. cbn [item0 rbind]. now rewrite H3.
Qed.

Lemma composer_templates_broken (capabilities : node) :
  nesting_broken capabilities -> composer_templates capabilities = Raise IndexError.
Proof.
  unfold composer_templates, lacks.
  intros [H1 | (root & [r1 H1] & [H2 | (capability & [r2 H2] & H3)])].
  - now rewrite H1.
  - rewrite H1. cbn [item0 rbind]. now rewrite H2.
  - rewrite H1. cbn [item0 rbind]. rewrite H2. cbn [item0 rbind]. now rewrite H3.
Qed.

(** C4. When the fetch of the capabilities document raises, [get] raises the
    same error; when the fetch returns, whatever the text, [get] returns a
    list: only failures of the parsing are swallowed. *)
Theorem fetch_error_propagates :
  (forall e,
     requests_get (project_url (getenv "LANDREG_PROJECT" "grundbuch")) get_params = Raise e ->
     get = Raise e) /\
  (forall text,
     requests_get (project_url (getenv "LANDREG_PROJECT" "grundbuch")) get_params = Ok text ->
     get = Ok (parse_capabilities text)).
Proof.
  unfold get. split; intros x H; now rewrite H.
Qed.

(** C2, amended. Once the document is fetched [get] returns a list and does
    not raise. The list is empty when the text is not well-formed XML and
    when the root, the [Capability] or the [ComposerTemplates] element is
    missing; when a template has no map frame with numeric width and height,
    the list holds the descriptors of the templates before the first such
    template, so it is empty when that template is the first. *)
Theorem lenient_parse (text : string) :
  (requests_get (project_url (getenv "LANDREG_PROJECT" "grundbuch")) get_params = Ok text ->
   get = Ok (parse_capabilities text)) /\
  (parseString text = None -> parse_capabilities text = []) /\
  (forall capabilities,
     parseString text = Some capabilities -> nesting_broken capabilities ->
     parse_capabilities text = []) /\
  (forall capabilities templates good bad rest entries,
     parseString text = Some capabilities -> nesting capabilities templates ->
     Dom.getElementsByTagName templates "ComposerTemplate" = good ++ bad :: rest ->
     Forall2 describes good entries -> defective bad ->
     parse_capabilities text = entries) /\
  (forall capabilities templates bad rest,
     parseString text = Some capabilities -> nesting capabilities templates ->
     Dom.getElementsByTagName templates "ComposerTemplate" = bad :: rest ->
     defective bad ->
     parse_capabilities text = []).
Proof.
  assert (Stop : forall capabilities templates good bad rest entries,
     parseString text = Some capabilities -> nesting capabilities templates ->
     Dom.getElementsByTagName templates "ComposerTemplate" = good ++ bad :: rest ->
     Forall2 describes good entries -> defective bad ->
     parse_capabilities text = entries).
  { intros capabilities templates good bad rest entries Hp Hn Hts Hgood Hbad.
    unfold parse_capabilities, try_body.
    rewrite Hp, (composer_templates_nesting _ _ Hn), Hts.
    now destruct (for_templates_stop good rest bad entries [] Hgood Hbad) as [e ->]. }
  repeat split.
  - intros H. unfold get. now rewrite H.
  - intros H. unfold parse_capabilities, try_body. now rewrite H.
  - intros capabilities Hp Hb. unfold parse_capabilities, try_body.
    now rewrite Hp, (composer_templates_broken _ Hb).
  - exact Stop.
  - intros capabilities templates bad rest Hp Hn Hts Hbad.
    apply (Stop capabilities templates [] bad rest []); try assumption. constructor.
Qed.

Lemma described_names (templates : list node) (layouts : list layout) :
  Forall2 describes templates layouts ->
  map layout_name layouts = map (fun t => Dom.getAttribute t "name") templates /\
  Forall (fun l => layout_default l = String.eqb (layout_name l) DEFAULT_LANDREG_LAYOUT)
         layouts.
Proof.
  induction 1 as [|t l ts ls (cm & _ & _ & _ & _ & Hname & Hd) _ [IHn IHd]]; simpl.
  - split; constructor.
  - split; [now rewrite Hname, IHn|].
    constructor; [now rewrite Hname | assumption].
Qed.

(** Among layouts of distinct names, the marked ones are those named as the
    default layout: one if the name occurs, none otherwise. *)
Lemma marked_default (layouts : list layout) :
  NoDup (map layout_name layouts) ->
  Forall (fun l => layout_default l = String.eqb (layout_name l) DEFAULT_LANDREG_LAYOUT)
         layouts ->
  (In DEFAULT_LANDREG_LAYOUT (map layout_name layouts) ->
   length (filter layout_default layouts) = 1) /\
  (~ In DEFAULT_LANDREG_LAYOUT (map layout_name layouts) ->
   filter layout_default layouts = []).
Proof.
  induction layouts as [|l ls IH]; simpl; intros Hnd Hall.
  - split; [contradiction | reflexivity].
  - inversion Hnd as [|? ? Hl Hnd']; subst.
    inversion Hall as [|? ? Hd Hall']; subst.
    destruct (IH Hnd' Hall') as [IH1 IH0]. rewrite Hd.
    destruct (String.eqb_spec (layout_name l) DEFAULT_LANDREG_LAYOUT) as [E|N].
    + rewrite <- E in *. split; [|intros H; exfalso; apply H; now left].
      intros _. simpl. now rewrite (IH0 Hl).
    + split.
      * intros [E|I]; [contradiction | now apply IH1].
      * intros H. apply IH0. tauto.
Qed.

(** C8. For every capabilities document with the fixed nesting, all of whose
    [ComposerTemplate] elements lie in the [ComposerTemplates] element, have
    distinct names and hold a map frame with numeric width and height, [get]
    returns one descriptor per template, in document order, each with the
    name, map width, map height and map name of its template; and exactly
    one descriptor is marked default when some template is named as the
    configured default layout, none otherwise. *)
Theorem templates_listed (text : string) (capabilities templates : node) :
  requests_get (project_url (getenv "LANDREG_PROJECT" "grundbuch")) get_params = Ok text ->
  parseString text = Some capabilities ->
  nesting capabilities templates ->
  Dom.getElementsByTagName capabilities "ComposerTemplate" =
  Dom.getElementsByTagName templates "ComposerTemplate" ->
  Forall framed (Dom.getElementsByTagName capabilities "ComposerTemplate") ->
  NoDup (map (fun t => Dom.getAttribute t "name")
             (Dom.getElementsByTagName capabilities "ComposerTemplate")) ->
  exists layouts,
    get = Ok layouts /\
    length layouts = length (Dom.getElementsByTagName capabilities "ComposerTemplate") /\
    Forall2 describes (Dom.getElementsByTagName capabilities "ComposerTemplate") layouts /\
    ((exists t, In t (Dom.getElementsByTagName capabilities "ComposerTemplate") /\
                Dom.getAttribute t "name" = DEFAULT_LANDREG_LAYOUT) ->
     length (filter layout_default layouts) = 1) /\
    ((forall t, In t (Dom.getElementsByTagName capabilities "ComposerTemplate") ->
                Dom.getAttribute t "name" <> DEFAULT_LANDREG_LAYOUT) ->
     filter layout_default layouts = []).
Proof.
  intros Hget Hp Hn Hall Hframed Hnd.
  destruct (all_framed_described _ Hframed) as [layouts D]. exists layouts.
  destruct (described_names _ _ D) as [Names Marks].
  rewrite <- Names in Hnd.
  destruct (marked_default layouts Hnd Marks) as [One Zero].
  repeat split.
  - unfold get. rewrite Hget. cbn [rbind]. f_equal.
    unfold parse_capabilities, try_body.
    rewrite Hp, (composer_templates_nesting _ _ Hn), <- Hall.
    now rewrite (for_templates_all _ layouts [] D).
  - symmetry. exact (Forall2_length D).
  - exact D.
  - intros (t & Ht & Hname). apply One. rewrite Names, <- Hname.
    now apply (in_map (fun t => Dom.getAttribute t "name")).
  - intros Hnone. apply Zero. rewrite Names. intros HI.
    apply in_map_iff in HI as (t & Hname & Ht). now apply (Hnone t).
Qed.

End Catalogue.

(** * Concrete runs *)

Example decimal_float_extent :
  map decimal_float (Str.split "," "10,20,30,40")
  = [Some 10%float; Some 20%float; Some 30%float; Some 40%float].
Proof. reflexivity. Qed.

(** C3. A print call whose query raises: the error leaves [post] while the
    connection taken for the query is still checked out; the call without
    the failure gives it back. *)
Theorem connection_held_when_query_raises :
  fst (@post office_no_table plain_pairs idle)
  = Raise (DatabaseError "relation does not exist") /\
  checked_out (snd (@post office_no_table plain_pairs idle)) = 1 /\
  checked_out (snd (@post office plain_pairs idle)) = 0.
Proof. repeat split; reflexivity. Qed.

(** [build] omitting [SCALE] fails with the missing-parameter error. *)
Lemma build_outcome_witness :
  Dict.get "SCALE" (@merged_params office no_scale_pairs) = None /\
  MissingParameterError (fst (@build office no_scale_pairs idle)).
Proof.
  split; [reflexivity|].
  refine (proj1 (proj2 (proj2 (@build_outcome office no_scale_pairs idle))
                   "0,0,10,10" eq_refl _ I (fun _ _ _ => I)) (or_introl eq_refl)).
  split; [vm_compute; lia|].
  cbn. repeat constructor; discriminate.
Defined.

(** Five numbers are accepted; a bad extent hides a missing scale; a failing
    lookup fails a well-formed call. *)
Lemma build_contract_counterexample :
  ~ @build_contract_as_stated office five_pieces_pairs idle /\
  ~ @build_contract_as_stated office no_scale_bad_extent_pairs idle /\
  ~ @build_contract_as_stated office_no_table plain_pairs idle.
Proof.
  repeat split.
  - intros (_ & H & _).
    assert (N : ~ @four_floats office "1,2,3,4,5")
      by (intros (a & b & c & d & E & _); vm_compute in E; discriminate).
    exact (H "1,2,3,4,5" eq_refl N).
  - intros (H & _). exact (H (or_intror (or_introl eq_refl))).
  - intros (_ & _ & H).
    refine (H "0,0,10,10" eq_refl _ _ _); try discriminate.
    exists "0", "0", "10", "10". repeat split; discriminate.
Qed.

Lemma fetch_error_propagates_witness :
  @requests_get office_offline
    (@project_url office_offline (@getenv office_offline "LANDREG_PROJECT" "grundbuch"))
    get_params
  = Raise (TransportError "connection refused") /\
  @get office_offline = Raise (TransportError "connection refused").
Proof.
  split; [reflexivity|].
  exact (proj1 (@fetch_error_propagates office_offline)
           (TransportError "connection refused") eq_refl).
Defined.

Lemma a4_nesting :
  @nesting (capabilities_of [template_a4; template_a3_no_map])
           (Element "ComposerTemplates" [] [template_a4; template_a3_no_map]).
Proof. do 2 eexists. repeat split; eexists; reflexivity. Defined.

Lemma a4_described : @describes office_incomplete template_a4 a4_layout.
Proof.
  exists (Element "ComposerMap" [("width", "190"); ("height", "270"); ("name", "map0")] []).
  repeat split; try reflexivity. eexists. reflexivity.
Defined.

(** The second template has no map frame: the first one is still listed. *)
Lemma lenient_parse_witness :
  @defective office_incomplete template_a3_no_map /\
  @parse_capabilities office_incomplete second_without_map_text = [a4_layout].
Proof.
  split; [left; reflexivity|].
  refine (proj1 (proj2 (proj2 (proj2 (@lenient_parse office_incomplete
                                         second_without_map_text))))
            _ _ [template_a4] template_a3_no_map [] [a4_layout]
            eq_refl a4_nesting eq_refl _ _).
  - constructor; [exact a4_described | constructor].
  - left. reflexivity.
Defined.

Lemma lenient_parse_counterexample :
  ~ @lenient_parse_as_stated office_incomplete second_without_map_text.
Proof.
  intros H.
  assert (E : @parse_capabilities office_incomplete second_without_map_text = []).
  { apply H. right. eexists. split; [reflexivity|]. right.
    exists (Element "ComposerTemplates" [] [template_a4; template_a3_no_map]),
           template_a3_no_map.
    split; [exact a4_nesting | split; [right; left; reflexivity | left; reflexivity]]. }
  discriminate E.
Qed.

Lemma build_prefixes_geometry_witness :
  @build office a4_pairs idle = (Ok a4_finished, a4_world) /\
  Dict.get "map0:GRID_INTERVAL_X" a4_finished
  = option_map Str (Dict.get "GRID_INTERVAL_X" (@merged_params office a4_pairs)) /\
  Dict.get "GRID_INTERVAL_X" a4_finished = None.
Proof.
  split; [reflexivity|].
  pose proof (@build_prefixes_geometry office a4_pairs idle a4_world a4_finished eq_refl)
    as (_ & _ & _ & _ & X & X' & _).
  exact (conj X X').
Defined.

Lemma build_layers_opacities_witness :
  @build office a4_pairs idle = (Ok a4_finished, a4_world) /\
  Dict.get "LAYERS" a4_finished = Some (Str "Grundstuecke,Gebaeude,Strassen").
Proof.
  split; [reflexivity|].
  exact (proj1 (@build_layers_opacities office a4_pairs idle a4_world a4_finished eq_refl)).
Defined.

Lemma lookup_at_centroid_witness :
  exists sql,
    executed (snd (@build office a4_pairs idle))
    = [{| q_sql := sql; q_x := 20%float; q_y := 30%float |}].
Proof.
  exact (proj2 (@lookup_at_centroid office a4_pairs idle)
           eq_refl eq_refl eq_refl eq_refl eq_refl).
Defined.

Lemma a4_all_framed :
  Forall (@framed office)
         (Dom.getElementsByTagName (capabilities_of [template_a4; template_a3])
                                   "ComposerTemplate").
Proof.
  repeat constructor.
  - exists (Element "ComposerMap" [("width", "190"); ("height", "270"); ("name", "map0")] []),
           190%float, 270%float.
    repeat split; try reflexivity. eexists. reflexivity.
  - exists (Element "ComposerMap" [("width", "400"); ("height", "270"); ("name", "map0")] []),
           400%float, 270%float.
    repeat split; try reflexivity. eexists. reflexivity.
Defined.

Lemma templates_listed_witness :
  exists layouts,
    @get office = Ok layouts /\ length layouts = 2 /\
    length (filter layout_default layouts) = 1.
Proof.
  assert (N : @nesting (capabilities_of [template_a4; template_a3])
                (Element "ComposerTemplates" [] [template_a4; template_a3]))
    by (do 2 eexists; repeat split; eexists; reflexivity).
  assert (U : NoDup (map (fun t => Dom.getAttribute t "name")
                         (Dom.getElementsByTagName
                            (capabilities_of [template_a4; template_a3]) "ComposerTemplate"))).
  { cbn. constructor; [intros [E|[]]; discriminate E|].
    constructor; [intros []|constructor]. }
  destruct (@templates_listed office two_templates_text _ _ eq_refl eq_refl N eq_refl
              a4_all_framed U) as (layouts & G & L & _ & One & _).
  exists layouts. split; [exact G | split; [exact L|]].
  apply One. exists template_a4. split; [left|]; reflexivity.
Defined.

Lemma post_response_witness :
  exists resp,
    @post office a4_pairs idle = (Ok resp, a4_world) /\
    status resp = 200%Z /\
    @Headers.get office "content-disposition" (headers resp)
    = Some "attachment; filename=grundbuch.pdf".
Proof.
  destruct (proj2 (@post_response office a4_pairs idle)
              a4_finished a4_world pdf_upstream "application/pdf" "PDF"
              eq_refl eq_refl eq_refl eq_refl eq_refl (fun _ => eq_refl)) as [resp P].
  exists resp. split; [exact P|].
  destruct (proj1 (@post_response office a4_pairs idle) resp a4_world P)
    as (params & req & ct & fmt & _ & RP & C & _ & M & S & _ & D).
  cbn in RP. injection RP as <-.
  cbn in C. injection C as <-.
  cbn in M. injection M as <-.
  exact (conj S D).
Defined.

(** The caller's [dpi] is forwarded as [DPI]. *)
Lemma build_frame_witness :
  @build office a4_pairs idle = (Ok a4_finished, a4_world) /\
  Dict.get "DPI" a4_finished = Some (Str "300").
Proof.
  split; [reflexivity|].
  refine (proj2 (proj2 (@build_frame office a4_pairs idle a4_world a4_finished eq_refl))
            [("SERVICE", "WMS"); ("VERSION", "1.3.0"); ("REQUEST", "GetPrint");
             ("FORMAT", "PDF"); ("TEMPLATE", "A4-Hoch"); ("EXTENT", "10,20,30,40");
             ("SCALE", "1000"); ("ROTATION", "0")]
            "dpi" "300" [("grid_interval_x", "100")] eq_refl _ _).
  - repeat constructor. discriminate.
  - cbn. intuition discriminate.
Defined.

(** Of two spellings of one key only the later is forwarded, and a parcel
    field of the caller gives way to the one looked up. *)
Lemma frame_counterexample :
  ~ @frame_as_stated office two_dpi_pairs idle /\
  ~ @frame_as_stated office own_geometer_pairs idle.
Proof.
  split; intros H.
  - assert (E : Dict.get (@upper office "dpi")
                  (match fst (@build office two_dpi_pairs idle) with
                   | Ok params => params | Raise _ => [] end) = Some (Str "300")).
    { apply (H _ _ eq_refl "dpi" "300" eq_refl). cbn. intuition discriminate. }
    discriminate E.
  - assert (E : Dict.get (@upper office "NFGEOMETER")
                  (match fst (@build office own_geometer_pairs idle) with
                   | Ok params => params | Raise _ => [] end) = Some (Str "Muster AG")).
    { apply (H _ _ eq_refl "NFGEOMETER" "Muster AG" eq_refl). cbn. intuition discriminate. }
    discriminate E.
Qed.

(** * Further properties of the print call *)

Section PrintCall.

Context {ext : Externals}.

(** X1. A finished request comes with exactly one executed statement, and
    carries what that statement returned: with a row, the five parcel fields
    are the row's values, of whatever type, whatever the caller sent under
    those names; without a row, they are what the merged mapping had. *)
Theorem build_enriches (pairs : list (string * string)) (w w' : world)
    (params : Dict.t value) :
  build pairs w = (Ok params, w') ->
  exists q sql_result,
    executed w' = executed w ++ [q] /\
    db_fetchone (q_sql q) (q_x q) (q_y q) = Ok sql_result /\
    match sql_result with
    | Some r =>
        Dict.get "NFGEOMETER" params = Some (nfgeometer r) /\
        Dict.get "LIEFERDATUM" params = Some (lieferdatum r) /\
        Dict.get "ANSCHRIFT" params = Some (anschrift r) /\
        Dict.get "KONTAKT" params = Some (kontakt r) /\
        Dict.get "GEMEINDE" params = Some (gemeinde r)
    | None =>
        forall K, In K parcel_keys ->
                  Dict.get K params = option_map Str (Dict.get K (merged_params pairs))
    end.
Proof.
  rewrite build_eq, with_layers_eq.
  destruct (extent_center _) as [xy|]; [|intros [=]].
  destruct db_connect; [|intros [=]].
  cbn zeta. cbn [q_sql].
  destruct (db_fetchone _ _ _) as [sql_result|] eqn:Q; [|intros [=]].
  rewrite prefix_keys_eq.
  destruct (Dict.get "EXTENT" _); [|intros [=]].
  destruct (Dict.get "SCALE" _); [|intros [=]].
  destruct (Dict.get "ROTATION" _); [|intros [=]].
  intros [= <- <-].
  eexists. exists sql_result. split; [reflexivity|]. split; [exact Q|].
  unfold all_renamed. cbn [fold_left geometry_keys].
  destruct sql_result as [r|].
  - unfold enrich. repeat split;
      rewrite !dict_get_renamed; literal_keys; rewrite !dict_get_set; literal_keys;
      reflexivity.
  - intros K HK. cbn in HK.
    destruct HK as [<-|[<-|[<-|[<-|[<-|[]]]]]];
      rewrite !dict_get_renamed; literal_keys; unfold enrich, as_values;
      rewrite dict_get_map_values, !dict_get_set; literal_keys; reflexivity.
Qed.

(** X2. Every key of a finished request is free of lower-case letters or is
    one of the five [map0:] keys: whatever spelling the caller used, no
    other key reaches the engine. *)
Theorem finished_keys_case (pairs : list (string * string)) (w w' : world)
    (params : Dict.t value) (K : string) :
  build pairs w = (Ok params, w') ->
  Dict.get K params <> None ->
  Str.no_lower K = true \/ In K prefixed_keys.
Proof.
  intros H HK.
  destruct (Str.no_lower K) eqn:L; [now left | right].
  destruct (in_dec string_dec K prefixed_keys) as [I|N]; [assumption|].
  exfalso. apply HK.
  rewrite (untouched_keys _ _ _ _ K H).
  - unfold merged_params. now rewrite upper_keys_only_upper.
  - intros HI. rewrite !in_app_iff in HI.
    destruct HI as [HI|[HI|[HI|HI]]]; [| | |contradiction].
    all: cbn in HI;
      repeat (destruct HI as [HI|HI]; [rewrite <- HI in L; discriminate L|]);
      exact HI.
Qed.

(** X5. When [EXTENT] is absent or cannot be read, the call fails before it
    touches the database: no connection is taken and nothing is executed. *)
Theorem no_database_without_extent (pairs : list (string * string)) (w : world) :
  Dict.get "EXTENT" (merged_params pairs) = None \/
  (exists e, Dict.get "EXTENT" (merged_params pairs) = Some e /\ ~ extent_readable e) ->
  snd (build pairs w) = w /\ snd (post pairs w) = w.
Proof.
  intros H.
  assert (B : snd (build pairs w) = w /\ ~ succeeds (fst (build pairs w))).
  { rewrite build_eq, with_layers_eq.
    destruct H as [He | (e & He & Hno)].
    - rewrite extent_center_missing; [split; [reflexivity | exact (fun F => F)]|].
      rewrite layered_get; [assumption | cbn; intuition discriminate].
    - assert (He' : Dict.get "EXTENT"
                (Dict.set "OPACITIES" (opacities (getenv "LANDREG_PRINT_LAYERS" "Grundstuecke"))
                   (Dict.set "LAYERS" (getenv "LANDREG_PRINT_LAYERS" "Grundstuecke")
                      (merged_params pairs))) = Some e)
        by (rewrite layered_get; [assumption | cbn; intuition discriminate]).
      pose proof (extent_center_unreadable _ _ He' Hno) as HM.
      destruct (extent_center _); [contradiction | split; [reflexivity | exact (fun F => F)]]. }
  destruct B as [Bw Bf]. split; [assumption|].
  unfold post, bind, lift.
  destruct (build pairs w) as [[params|err] w1]; cbn in *; [now exfalso | assumption].
Qed.

(** X6. The error of an unreadable extent: the [ValueError] of the first
    piece that is no number, wherever it stands, and the [IndexError] when
    all pieces are numbers but there are fewer than four. *)
Theorem extent_error_detail (pairs : list (string * string)) (w : world) (e : string) :
  Dict.get "EXTENT" (merged_params pairs) = Some e ->
  (forall good bad rest,
     Str.split "," e = good ++ bad :: rest ->
     Forall is_number good -> float_of_string bad = None ->
     build pairs w = (Raise (ValueError bad), w)) /\
  (Forall is_number (Str.split "," e) -> length (Str.split "," e) < 4 ->
   build pairs w = (Raise IndexError, w)).
Proof.
  intros He.
  assert (He' : Dict.get "EXTENT"
              (Dict.set "OPACITIES" (opacities (getenv "LANDREG_PRINT_LAYERS" "Grundstuecke"))
                 (Dict.set "LAYERS" (getenv "LANDREG_PRINT_LAYERS" "Grundstuecke")
                    (merged_params pairs))) = Some e)
    by (rewrite layered_get; [assumption | cbn; intuition discriminate]).
  split.
  - intros good bad rest Hs Hgood Hbad.
    rewrite build_eq, with_layers_eq.
    unfold extent_center, Dict.getitem. rewrite He'. cbn [rbind]. rewrite Hs.
    assert (R : map_res float (good ++ bad :: rest) = Raise (ValueError bad)).
    { clear Hs. induction Hgood as [|g gs Hg _ IH]; cbn [app map_res].
      - unfold float at 1. now rewrite Hbad.
      - destruct (float_cases g) as [(f & _ & ->)|[Hn _]]; [|contradiction].
        cbn [rbind]. now rewrite IH. }
    now rewrite R.
  - intros Hall Hlen.
    rewrite build_eq, with_layers_eq.
    unfold extent_center, Dict.getitem. rewrite He'. cbn [rbind].
    destruct (map_res_float (Str.split "," e)) as [(_ & fs & -> & Hfs)|(Hnot & _)];
      [|contradiction].
    cbn [rbind]. rewrite (Forall2_length Hfs) in Hlen.
    destruct fs as [|f0 [|f1 [|f2 [|f3 fs]]]]; cbn in *; try reflexivity. lia.
Qed.

(** X7. When the connection cannot be obtained the call fails with the
    driver's error, with nothing checked out and nothing executed. *)
Theorem connect_failure (pairs : list (string * string)) (w : world) (e : string)
    (err : exn) :
  Dict.get "EXTENT" (merged_params pairs) = Some e -> extent_readable e ->
  db_connect = Raise err ->
  post pairs w = (Raise err, w).
Proof.
  intros He Hread Hconn.
  assert (He' : Dict.get "EXTENT"
              (Dict.set "OPACITIES" (opacities (getenv "LANDREG_PRINT_LAYERS" "Grundstuecke"))
                 (Dict.set "LAYERS" (getenv "LANDREG_PRINT_LAYERS" "Grundstuecke")
                    (merged_params pairs))) = Some e)
    by (rewrite layered_get; [assumption | cbn; intuition discriminate]).
  pose proof (extent_center_readable _ _ He' Hread) as HS.
  unfold post, bind, lift. rewrite build_eq, with_layers_eq.
  destruct (extent_center _); [|contradiction].
  now rewrite Hconn.
Qed.


(** X9. By the time the request is forwarded the connection is back in the
    pool. If the engine call raises, so does the print call, with the same
    error; and an engine response without a content-type header makes the
    print call fail with a [KeyError] although the engine has answered. *)
Theorem forward_failures (pairs : list (string * string)) (w w' : world) (params : Dict.t value) :
  build pairs w = (Ok params, w') ->
  checked_out w' = checked_out w /\
  (forall err,
     requests_post (project_url (getenv "LANDREG_PROJECT" "grundbuch")) 120 params
     = Raise err ->
     post pairs w = (Raise err, w')) /\
  (forall req,
     requests_post (project_url (getenv "LANDREG_PROJECT" "grundbuch")) 120 params
     = Ok req ->
     Headers.get "content-type" (up_headers req) = None ->
     post pairs w = (Raise (KeyError "content-type"), w')).
Proof.
  intros H. split; [|split].
  - revert H. rewrite build_eq.
    destruct (with_layers _); [|intros [=]].
    destruct (extent_center _); [|intros [=]].
    destruct db_connect; [|intros [=]].
    cbn zeta. destruct (db_fetchone _ _ _); [|intros [=]].
    now intros [= _ <-].
  - intros err P. rewrite post_of_build, H. unfold forward. now rewrite P.
  - intros req P C. rewrite post_of_build, H. unfold forward, Headers.getitem.
    rewrite P. cbn [rbind]. now rewrite C.
Qed.

End PrintCall.

(** * Where the forwarded parameters come from *)

(** The value an upper-cased dictionary has for a key is that of the last
    entry spelled like it. *)
Lemma upper_keys_winner {ext : Externals} {V : Type} (d : Dict.t V) (K : string) (v : V) :
  Dict.get K (Dict.upper_keys upper d) = Some v ->
  exists before k after,
    d = before ++ (k, v) :: after /\ upper k = K /\
    Forall (fun kv => upper (fst kv) <> K) after.
Proof.
  unfold Dict.upper_keys.
  induction d as [|[k1 v1] d IH] using rev_ind; [discriminate|].
  rewrite fold_left_app. cbn [fold_left]. unfold Dict.upper_step at 1. cbn [fst snd].
  rewrite dict_get_set.
  destruct (String.eqb_spec K (upper k1)) as [->|N].
  - intros [= ->]. exists d, k1, []. repeat split. constructor.
  - intros H. destruct (IH H) as (before & k & after & -> & Hk & Hafter).
    exists before, k, (after ++ [(k1, v1)]).
    rewrite <- app_assoc. repeat split; [assumption|].
    apply Forall_app. split; [assumption|].
    constructor; [cbn; congruence | constructor].
Qed.

(** [update] keeps the keys of the dictionary in place and appends the new
    ones. *)
Lemma dict_update_keys {V : Type} (other : list (string * V)) (d : Dict.t V) :
  exists extra,
    Dict.keys (Dict.update d other) = Dict.keys d ++ extra /\
    Forall (fun k => ~ In k (Dict.keys d) /\ In k (Dict.keys other)) extra.
Proof.
  unfold Dict.update. revert d.
  induction other as [|[k v] other IH]; intros d; cbn [fold_left fst snd].
  - exists []. split; [now rewrite app_nil_r | constructor].
  - destruct (IH (Dict.set k v d)) as (extra & E & F).
    rewrite dict_keys_set in E. unfold Dict.mem in E.
    destruct (Dict.get k d) eqn:G.
    + exists extra. split; [assumption|].
      rewrite dict_keys_set in F. unfold Dict.mem in F. rewrite G in F.
      eapply Forall_impl; [|exact F]. cbn. intros x [A B]. tauto.
    + exists (k :: extra). rewrite <- app_assoc in E. split; [assumption|].
      apply dict_get_none_keys in G.
      constructor; [split; [assumption | now left]|].
      rewrite dict_keys_set in F. unfold Dict.mem in F.
      assert (G' : Dict.get k d = None) by now apply dict_get_none_keys.
      rewrite G' in F.
      eapply Forall_impl; [|exact F]. cbn. intros x [A B].
      split; [|tauto]. intros I. apply A. apply in_or_app. now left.
Qed.

Lemma dict_in_get {V : Type} (k : string) (v : V) (d : Dict.t V) :
  NoDup (Dict.keys d) -> In (k, v) d -> Dict.get k d = Some v.
Proof.
  induction d as [|[k' v'] d IH]; cbn; intros Hnd HI; [contradiction|].
  inversion Hnd as [|? ? Hk Hnd']; subst.
  destruct HI as [[= -> ->]|HI].
  - now rewrite String.eqb_refl.
  - destruct (String.eqb_spec k k') as [->|]; [|now apply IH].
    exfalso. apply Hk. now apply (in_map fst) in HI.
Qed.

Lemma default_keys_upper {ext : Externals} (K v : string) :
  In (K, v) default_params -> upper K = K.
Proof.
  cbn. intros [[= <- _]|[[= <- _]|[[= <- _]|[[= <- _]|[]]]]];
    now rewrite upper_ascii.
Qed.

Lemma merged_items_nodup (pairs : list (string * string)) :
  NoDup (Dict.keys (merged_items pairs)).
Proof.
  apply dict_update_nodup. cbn.
  repeat constructor; cbn; intuition discriminate.
Qed.

Section Provenance.

Context {ext : Externals}.

(** X3. A default the caller does not address, under any spelling of its
    key, is forwarded as it is. *)
Theorem defaults_kept (pairs : list (string * string)) (w w' : world) (params : Dict.t value)
    (K v : string) :
  build pairs w = (Ok params, w') ->
  In (K, v) default_params ->
  (forall k, In k (Dict.keys (Dict.of_pairs pairs)) -> upper k <> K) ->
  Dict.get K params = Some (Str v).
Proof.
  intros H HD Hnone.
  pose proof (default_keys_upper _ _ HD) as HU.
  assert (Hm : Dict.get K (merged_items pairs) = Some v).
  { unfold merged_items. rewrite dict_get_update by apply of_pairs_nodup.
    destruct (Dict.get K (Dict.of_pairs pairs)) eqn:G.
    - exfalso. apply (Hnone K); [|assumption].
      apply dict_get_none_keys_not. congruence.
    - apply dict_in_get; [|assumption]. cbn.
      repeat constructor; cbn; intuition discriminate. }
  destruct (in_split _ _ (dict_get_in _ _ _ Hm)) as (before & after & Hsplit).
  assert (Hafter : Forall (fun kv => upper (fst kv) <> upper K) after).
  { rewrite HU. apply Forall_forall. intros [k2 v2] Hin. cbn.
    pose proof (merged_items_nodup pairs) as Hnd.
    rewrite Hsplit in Hnd. unfold Dict.keys in Hnd. rewrite map_app in Hnd. cbn in Hnd.
    apply NoDup_remove_2 in Hnd.
    assert (Hne : k2 <> K).
    { intros ->. apply Hnd. apply in_or_app. right.
      now apply (in_map fst) in Hin. }
    destruct (dict_update_keys (Dict.of_pairs pairs) default_params) as (extra & E & F).
    assert (Hk2 : In k2 (Dict.keys (merged_items pairs))).
    { rewrite Hsplit. unfold Dict.keys. rewrite map_app. apply in_or_app. right. right.
      now apply (in_map fst) in Hin. }
    unfold merged_items in Hk2. rewrite E in Hk2.
    apply in_app_or in Hk2 as [Hdef | Hext].
    - apply in_map_iff in Hdef as ([k3 v3] & <- & H3). cbn.
      rewrite (default_keys_upper _ _ H3). exact Hne.
    - rewrite Forall_forall in F. apply Hnone. now apply F. }
  rewrite (untouched_keys _ _ _ _ K H).
  - unfold merged_params. fold (merged_items pairs). rewrite Hsplit.
    pose proof (upper_keys_last before after K v Hafter) as L.
    rewrite HU in L. now rewrite L.
  - cbn in HD. cbn.
    destruct HD as [[= <- _]|[[= <- _]|[[= <- _]|[[= <- _]|[]]]]]; intuition discriminate.
Qed.

(** X4. Outside the keys the handler writes, whatever is forwarded is a
    [str] that was sent by the caller under some spelling of the key (a key
    that [str.upper] maps to it), or it is a default that the caller
    addressed under no spelling: a caller value always wins over a default,
    and nothing else is forwarded. *)
Theorem forwarded_provenance (pairs : list (string * string)) (w w' : world)
    (params : Dict.t value) (K : string) (v : value) :
  build pairs w = (Ok params, w') ->
  ~ In K (geometry_keys ++ injected_keys ++ parcel_keys ++ prefixed_keys) ->
  Dict.get K params = Some v ->
  exists s,
    v = Str s /\
    ((exists k, Dict.get k (Dict.of_pairs pairs) = Some s /\ upper k = K) \/
     (In (K, s) default_params /\
      forall k, In k (Dict.keys (Dict.of_pairs pairs)) -> upper k <> K)).
Proof.
  intros H HK Hv0.
  rewrite (untouched_keys _ _ _ _ K H HK) in Hv0.
  destruct (Dict.get K (merged_params pairs)) as [s|] eqn:Hv; [|discriminate].
  injection Hv0 as <-. exists s. split; [reflexivity|].
  rename s into v.
  unfold merged_params in Hv. fold (merged_items pairs) in Hv.
  destruct (upper_keys_winner _ _ _ Hv) as (before & k & after & Hsplit & Hk & Hafter).
  pose proof (merged_items_nodup pairs) as Hnd.
  assert (Hm : Dict.get k (merged_items pairs) = Some v).
  { apply dict_in_get; [assumption|]. rewrite Hsplit. apply in_or_app. right. now left. }
  unfold merged_items in Hm. rewrite dict_get_update in Hm by apply of_pairs_nodup.
  destruct (Dict.get k (Dict.of_pairs pairs)) as [v'|] eqn:G.
  - left. exists k. split; [congruence | assumption].
  - right. apply dict_get_in in Hm.
    pose proof (default_keys_upper _ _ Hm) as HU.
    assert (EK : k = K) by congruence. subst k.
    split; [assumption|].
    intros k' Hk' Hup.
    assert (Hne : k' <> K).
    { intros ->. apply dict_get_none_keys in G. contradiction. }
    destruct (dict_update_keys (Dict.of_pairs pairs) default_params) as (extra & E & F).
    fold (merged_items pairs) in E.
    assert (Hnotdef : ~ In k' (Dict.keys default_params)).
    { intros Hdef. apply in_map_iff in Hdef as ([k3 v3] & E3 & H3). cbn in E3. subst k3.
      apply Hne. rewrite <- Hup. symmetry. apply (default_keys_upper _ _ H3). }
    assert (Hin' : In k' (Dict.keys (merged_items pairs))).
    { apply dict_get_none_keys_not. unfold merged_items.
      rewrite dict_get_update by apply of_pairs_nodup.
      destruct (Dict.get k' (Dict.of_pairs pairs)) eqn:G'; [discriminate|].
      apply dict_get_none_keys in G'. contradiction. }
    assert (Hkeys : Dict.keys (merged_items pairs)
                    = Dict.keys before ++ K :: Dict.keys after).
    { rewrite Hsplit. unfold Dict.keys. now rewrite map_app. }
    rewrite Hkeys in Hin'.
    apply in_app_or in Hin' as [Hb | [Hc | Ha]].
    + (* before the default: impossible, the defaults come first *)
      rewrite Hkeys in E.
      apply app_eq_app in E as (l & [[E1 E2] | [E1 E2]]).
      * assert (HKx : In K extra)
          by (rewrite E2; apply in_or_app; right; now left).
        rewrite Forall_forall in F. destruct (F K HKx) as [Hno _].
        apply Hno. now apply (in_map fst) in Hm.
      * apply Hnotdef. rewrite E1. apply in_or_app. now left.
    + now apply Hne.
    + rewrite Forall_forall in Hafter.
      apply in_map_iff in Ha as ([k4 v4] & E4 & H4). cbn in E4. subst k4.
      apply (Hafter _ H4). cbn. congruence.
Qed.

End Provenance.

(** * Further properties of the template catalogue *)

Section Listing.

Context {ext : Externals}.

Lemma template_entry_ok (template : node) (l : layout) :
  template_entry template = Ok l -> describes template l.
Proof.
  unfold template_entry, describes, first_of.
  destruct (Dom.getElementsByTagName template "ComposerMap") as [|cm rest] eqn:E;
    [discriminate|].
  cbn [item0 rbind]. unfold float.
  destruct (float_of_string (Dom.getAttribute cm "width")) as [mw|] eqn:Hw;
    [|discriminate].
  cbn [rbind].
  destruct (float_of_string (Dom.getAttribute cm "height")) as [mh|] eqn:Hh;
    [|discriminate].
  cbn [rbind]. intros [= <-]. exists cm. cbn.
  repeat split; try assumption. now exists rest.
Qed.

Lemma template_entry_raise (template : node) (e : exn) :
  template_entry template = Raise e -> defective template.
Proof.
  unfold template_entry, defective, lacks, first_of.
  destruct (Dom.getElementsByTagName template "ComposerMap") as [|cm rest] eqn:E;
    [now left|].
  cbn [item0 rbind]. unfold float. intros H. right. exists cm.
  split; [now exists rest|].
  destruct (float_of_string (Dom.getAttribute cm "width")); [|now left].
  cbn [rbind] in H.
  destruct (float_of_string (Dom.getAttribute cm "height")); [discriminate | now right].
Qed.

Lemma composer_templates_ok (capabilities templates : node) :
  composer_templates capabilities = Ok templates -> nesting capabilities templates.
Proof.
  unfold composer_templates, nesting, first_of.
  destruct (Dom.getElementsByTagName capabilities "WMS_Capabilities") as [|root r1] eqn:E1;
    [discriminate|].
  cbn [item0 rbind].
  destruct (Dom.getElementsByTagName root "Capability") as [|capability r2] eqn:E2;
    [discriminate|].
  cbn [item0 rbind].
  destruct (Dom.getElementsByTagName capability "ComposerTemplates") as [|t r3] eqn:E3;
    [discriminate|].
  cbn [item0]. intros [= <-].
  exists root, capability. repeat split; eexists; eassumption || reflexivity.
Qed.

(** The loop describes the templates up to the first defective one, or all
    of them. *)
Lemma for_templates_prefix (templates : list node) (layouts : list layout) :
  exists good rest entries,
    templates = good ++ rest /\
    Forall2 describes good entries /\
    snd (for_templates templates layouts) = layouts ++ entries /\
    (rest = [] \/ exists bad rest', rest = bad :: rest' /\ defective bad).
Proof.
  revert layouts.
  induction templates as [|t ts IH]; intros layouts; cbn [for_templates].
  - exists [], [], []. repeat split; [constructor | now rewrite app_nil_r | now left].
  - destruct (template_entry t) as [l|e] eqn:E.
    + destruct (IH (layouts ++ [l])) as (good & rest & entries & -> & Hd & Hs & Hr).
      exists (t :: good), rest, (l :: entries).
      repeat split; [|now rewrite Hs, <- app_assoc | assumption].
      constructor; [now apply template_entry_ok | assumption].
    + exists [], (t :: ts), []. repeat split; [constructor | now rewrite app_nil_r|].
      right. exists t, ts. split; [reflexivity | now apply (template_entry_raise _ e)].
Qed.

(** X10. Whatever the templates of a document with the fixed nesting are,
    the list returned describes, in document order, the templates up to the
    first defective one, and all of them when none is defective. *)
Theorem listing_is_prefix (text : string) (capabilities templates : node) :
  parseString text = Some capabilities ->
  nesting capabilities templates ->
  exists good rest,
    Dom.getElementsByTagName templates "ComposerTemplate" = good ++ rest /\
    Forall2 describes good (parse_capabilities text) /\
    (rest = [] \/ exists bad rest', rest = bad :: rest' /\ defective bad).
Proof.
  intros Hp Hn. unfold parse_capabilities, try_body.
  rewrite Hp, (composer_templates_nesting _ _ Hn).
  destruct (for_templates_prefix (Dom.getElementsByTagName templates "ComposerTemplate") [])
    as (good & rest & entries & Hs & Hd & He & Hr).
  exists good, rest. rewrite He. now repeat split.
Qed.

Lemma listed_described (text : string) (l : layout) :
  In l (parse_capabilities text) ->
  exists capabilities templates t,
    parseString text = Some capabilities /\
    nesting capabilities templates /\
    In t (Dom.getElementsByTagName templates "ComposerTemplate") /\
    describes t l.
Proof.
  unfold parse_capabilities, try_body.
  destruct (parseString text) as [capabilities|]; [|intros []].
  destruct (composer_templates capabilities) as [templates|] eqn:C; [|intros []].
  destruct (for_templates_prefix (Dom.getElementsByTagName templates "ComposerTemplate") [])
    as (good & rest & entries & Hs & Hd & He & _).
  rewrite He. cbn [app]. intros Hl.
  exists capabilities, templates.
  assert (D : exists t, In t good /\ describes t l).
  { clear Hs He. induction Hd as [|t0 l0 ts ls Ht _ IH]; [contradiction|].
    destruct Hl as [<-|Hl].
    - exists t0. split; [now left | assumption].
    - destruct (IH Hl) as (t & Hin & Hdesc). exists t. split; [now right | assumption]. }
  destruct D as (t & Hin & Hdesc). exists t.
  repeat split; [now apply composer_templates_ok | | assumption].
  rewrite Hs. apply in_or_app. now left.
Qed.

(** X11. Nothing is listed that is not in the document: every descriptor
    returned, for any text, describes a [ComposerTemplate] element found
    through the fixed nesting of the parsed text. *)
Theorem listed_layout_sound (text : string) (l : layout) :
  In l (parse_capabilities text) ->
  exists capabilities templates t,
    parseString text = Some capabilities /\
    nesting capabilities templates /\
    In t (Dom.getElementsByTagName templates "ComposerTemplate") /\
    describes t l.
Proof. apply listed_described. Qed.

(** X12. In any list returned, names unique or not, a descriptor is marked
    default exactly when its name is the configured default layout. *)
Theorem default_mark_law (text : string) (l : layout) :
  In l (parse_capabilities text) ->
  (layout_default l = true <-> layout_name l = DEFAULT_LANDREG_LAYOUT).
Proof.
  intros H.
  destruct (listed_described _ _ H)
    as (_ & _ & t & _ & _ & _ & cm & _ & _ & _ & _ & Hname & Hd).
  rewrite Hd, Hname. apply String.eqb_eq.
Qed.

End Listing.

(** * The address of the engine *)

Lemma append_nil_right (s : string) : (s ++ "")%string = s.
Proof. induction s as [|c s IH]; cbn; [reflexivity | now rewrite IH]. Qed.

Lemma append_assoc_str (s t u : string) : ((s ++ t) ++ u)%string = (s ++ (t ++ u))%string.
Proof. induction s as [|c s IH]; cbn; [reflexivity | now rewrite IH]. Qed.

Lemma rev_acc_app (s acc : string) :
  Str.rev_acc s acc = (Str.rev_acc s "" ++ acc)%string.
Proof.
  revert acc. induction s as [|c s IH]; intros acc; cbn; [reflexivity|].
  rewrite (IH (String c acc)), (IH (String c "")), append_assoc_str. reflexivity.
Qed.

Lemma rev_acc_of_app (s t acc : string) :
  Str.rev_acc (s ++ t) acc = Str.rev_acc t (Str.rev_acc s acc).
Proof. revert acc. induction s as [|c s IH]; intros acc; cbn; [reflexivity | apply IH]. Qed.

Lemma rev_acc_twice (s acc acc' : string) :
  Str.rev_acc (Str.rev_acc s acc) acc' = Str.rev_acc acc (s ++ acc').
Proof.
  revert acc acc'. induction s as [|c s IH]; intros acc acc'; cbn; [reflexivity|].
  now rewrite IH.
Qed.

Lemma rev_involutive_str (s : string) : Str.rev_acc (Str.rev_acc s "") "" = s.
Proof. rewrite rev_acc_twice. cbn. apply append_nil_right. Qed.

(** [lstrip] takes a run of [c] off the front, and all of it. *)
Lemma lstrip_split (c : ascii) (s : string) :
  exists run,
    s = (run ++ Str.lstrip c s)%string /\
    (forall d, Str.mem d run = true -> d = c) /\
    (forall u, Str.lstrip c s <> String c u).
Proof.
  induction s as [|d s (run & Hs & Hrun & Hno)]; cbn.
  - exists "". repeat split; [intros d; discriminate | intros u; discriminate].
  - destruct (Ascii.eqb_spec c d) as [<-|N].
    + exists (String c run). repeat split; [cbn; now rewrite <- Hs | | assumption].
      intros d. cbn. intros H. apply orb_true_iff in H as [H | H].
      * now apply Ascii.eqb_eq in H.
      * now apply Hrun.
    + exists "". repeat split; [intros d'; discriminate|].
      intros u [= E _]. now apply N.
Qed.

Lemma mem_rev_acc (d : ascii) (s acc : string) :
  Str.mem d (Str.rev_acc s acc) = Str.mem d s || Str.mem d acc.
Proof.
  revert acc. induction s as [|c s IH]; intros acc; cbn; [reflexivity|].
  rewrite IH. cbn. now destruct (Ascii.eqb d c), (Str.mem d s), (Str.mem d acc).
Qed.

(** [rstrip] takes a run of [c] off the end, and all of it. *)
Lemma rstrip_split (c : ascii) (s : string) :
  exists run,
    s = (Str.rstrip c s ++ run)%string /\
    (forall d, Str.mem d run = true -> d = c) /\
    (forall u, Str.rstrip c s <> (u ++ String c "")%string).
Proof.
  unfold Str.rstrip.
  destruct (lstrip_split c (Str.rev_acc s "")) as (run & Hs & Hrun & Hno).
  exists (Str.rev_acc run ""). repeat split.
  - rewrite <- (rev_involutive_str s) at 1. rewrite Hs at 1.
    rewrite rev_acc_of_app. apply rev_acc_app.
  - intros d H. apply Hrun. rewrite mem_rev_acc in H. cbn in H.
    now rewrite orb_false_r in H.
  - intros u E. apply (Hno (Str.rev_acc u "")).
    rewrite <- (rev_involutive_str (Str.lstrip c (Str.rev_acc s ""))), E.
    rewrite rev_acc_of_app. reflexivity.
Qed.

Section Address.

Context {ext : Externals}.

(** X13. Both handlers address the engine at the configured URL without its
    trailing slashes, followed by one slash and the project: however many
    slashes end [QGIS_SERVER_URL], exactly one separates it from the
    project. *)
Theorem project_url_shape (project : string) :
  exists base slashes,
    QGIS_SERVER_URL = (base ++ slashes)%string /\
    (forall d, Str.mem d slashes = true -> d = "/"%char) /\
    (forall u, base <> (u ++ "/")%string) /\
    project_url project = (base ++ "/" ++ project)%string.
Proof.
  destruct (rstrip_split "/" QGIS_SERVER_URL) as (run & Hs & Hrun & Hno).
  exists (Str.rstrip "/" QGIS_SERVER_URL), run. now repeat split.
Qed.

End Address.

(** * Spellings of a default key, and the response that is always built *)

Section Precedence.

Context {ext : Externals}.

(** X14. When the caller sends a default key under another spelling, the
    value forwarded is one sent under such another spelling: a value sent
    under the exact key, like the default itself, loses to it wherever it
    stands in the request. *)
Theorem other_spelling_wins (pairs : list (string * string)) (w w' : world)
    (params : Dict.t value) (K v0 k' : string) :
  build pairs w = (Ok params, w') ->
  In (K, v0) default_params ->
  In k' (Dict.keys (Dict.of_pairs pairs)) -> upper k' = K -> k' <> K ->
  exists k v,
    k <> K /\ upper k = K /\
    Dict.get k (Dict.of_pairs pairs) = Some v /\
    Dict.get K params = Some (Str v).
Proof.
  intros H HD Hk' Hup Hne.
  assert (HKw : ~ In K (geometry_keys ++ injected_keys ++ parcel_keys ++ prefixed_keys)).
  { cbn in HD. cbn.
    destruct HD as [[= <- _]|[[= <- _]|[[= <- _]|[[= <- _]|[]]]]]; intuition discriminate. }
  assert (Hhas : Dict.get K (merged_params pairs) <> None).
  { rewrite <- (default_keys_upper _ _ HD). apply upper_keys_has.
    apply dict_get_none_keys_not. unfold merged_items.
    rewrite dict_get_update by apply of_pairs_nodup.
    rewrite (dict_in_get K v0 default_params); [now destruct (Dict.get K _)| |assumption].
    cbn. repeat constructor; cbn; intuition discriminate. }
  destruct (Dict.get K (merged_params pairs)) as [v|] eqn:Hv; [|contradiction].
  unfold merged_params in Hv. fold (merged_items pairs) in Hv.
  destruct (upper_keys_winner _ _ _ Hv) as (before & k & after & Hsplit & Hk & Hafter).
  pose proof (merged_items_nodup pairs) as Hnd.
  assert (Hm : Dict.get k (merged_items pairs) = Some v).
  { apply dict_in_get; [assumption|]. rewrite Hsplit. apply in_or_app. right. now left. }
  assert (HkK : k <> K).
  { intros ->.
    destruct (dict_update_keys (Dict.of_pairs pairs) default_params) as (extra & E & F).
    fold (merged_items pairs) in E.
    assert (Hnotdef : ~ In k' (Dict.keys default_params)).
    { intros Hdef. apply in_map_iff in Hdef as ([k3 v3] & E3 & H3). cbn in E3. subst k3.
      apply Hne. rewrite <- Hup. symmetry. apply (default_keys_upper _ _ H3). }
    assert (Hin' : In k' (Dict.keys (merged_items pairs))).
    { apply dict_get_none_keys_not. unfold merged_items.
      rewrite dict_get_update by apply of_pairs_nodup.
      destruct (Dict.get k' (Dict.of_pairs pairs)) eqn:G'; [discriminate|].
      apply dict_get_none_keys in G'. contradiction. }
    assert (Hext : In k' extra).
    { rewrite E in Hin'. apply in_app_or in Hin' as [?|?]; [contradiction | assumption]. }
    assert (Hkeys : Dict.keys (merged_items pairs)
                    = Dict.keys before ++ K :: Dict.keys after).
    { rewrite Hsplit. unfold Dict.keys. now rewrite map_app. }
    rewrite Hkeys in E.
    apply app_eq_app in E as (l & [[E1 E2] | [E1 E2]]).
    - assert (HKx : In K extra)
        by (rewrite E2; apply in_or_app; right; now left).
      rewrite Forall_forall in F. destruct (F K HKx) as [Hno _].
      apply Hno. now apply (in_map fst) in HD.
    - assert (Hla : In k' (K :: Dict.keys after))
        by (rewrite E2; apply in_or_app; now right).
      destruct Hla as [Hla | Hla]; [now apply Hne|].
      rewrite Forall_forall in Hafter.
      apply in_map_iff in Hla as ([k4 v4] & E4 & H4). cbn in E4. subst k4.
      now apply (Hafter _ H4). }
  exists k, v. repeat split; try assumption.
  - unfold merged_items in Hm. rewrite dict_get_update in Hm by apply of_pairs_nodup.
    destruct (Dict.get k (Dict.of_pairs pairs)) as [v'|]; [assumption|].
    exfalso. apply HkK. apply dict_get_in in Hm.
    rewrite <- Hk. symmetry. apply (default_keys_upper _ _ Hm).
  - rewrite (untouched_keys _ _ _ _ K H HKw). unfold merged_params.
    fold (merged_items pairs). now rewrite Hv.
Qed.


End Precedence.

(** * Further concrete runs *)

(** The row found fills the five parcel fields, a NULL column as [None]. *)
Lemma build_enriches_witness :
  @build office a4_pairs idle = (Ok a4_finished, a4_world) /\
  Dict.get "KONTAKT" a4_finished = Some PyNone /\
  Dict.get "GEMEINDE" a4_finished = Some (Str "Solothurn").
Proof.
  split; [reflexivity|].
  destruct (@build_enriches office a4_pairs idle a4_world a4_finished eq_refl)
    as (q & sql_result & _ & Q & M).
  cbn in Q. injection Q as <-. exact (proj2 (proj2 (proj2 M))).
Defined.

Lemma finished_keys_case_witness :
  Dict.get "map0:SCALE" a4_finished <> None /\
  (Str.no_lower "map0:SCALE" = true \/ In "map0:SCALE" prefixed_keys).
Proof.
  split; [discriminate|].
  apply (@finished_keys_case office a4_pairs idle a4_world a4_finished "map0:SCALE" eq_refl).
  discriminate.
Defined.

Lemma defaults_kept_witness :
  @build office a4_pairs idle = (Ok a4_finished, a4_world) /\
  Dict.get "REQUEST" a4_finished = Some (Str "GetPrint").
Proof.
  split; [reflexivity|].
  apply (@defaults_kept office a4_pairs idle a4_world a4_finished "REQUEST" "GetPrint" eq_refl).
  - cbn. tauto.
  - cbn. intros k [<-|[<-|[<-|[<-|[<-|[<-|[]]]]]]]; discriminate.
Defined.

Lemma forwarded_provenance_witness :
  Dict.get "DPI" a4_finished = Some (Str "300") /\
  exists s,
    Str "300" = Str s /\
    ((exists k, Dict.get k (Dict.of_pairs a4_pairs) = Some s /\ @upper office k = "DPI") \/
     (In ("DPI", s) default_params /\
      forall k, In k (Dict.keys (Dict.of_pairs a4_pairs)) -> @upper office k <> "DPI")).
Proof.
  split; [reflexivity|].
  apply (@forwarded_provenance office a4_pairs idle a4_world a4_finished "DPI" (Str "300")
           eq_refl); [|reflexivity].
  cbn. intuition discriminate.
Defined.

Lemma abc_unreadable : ~ @extent_readable office "abc".
Proof. intros [L _]. vm_compute in L. lia. Defined.

Lemma no_database_without_extent_witness :
  Dict.get "EXTENT" (@merged_params office no_scale_bad_extent_pairs) = Some "abc" /\
  snd (@build office no_scale_bad_extent_pairs idle) = idle /\
  snd (@post office no_scale_bad_extent_pairs idle) = idle.
Proof.
  split; [reflexivity|].
  apply (@no_database_without_extent office no_scale_bad_extent_pairs idle).
  right. exists "abc". split; [reflexivity | exact abc_unreadable].
Defined.

Lemma extent_error_detail_witness :
  Str.split "," "1,x,3,y" = ["1"] ++ "x" :: ["3"; "y"] /\
  @build office bad_piece_pairs idle = (Raise (ValueError "x"), idle).
Proof.
  split; [reflexivity|].
  apply (proj1 (@extent_error_detail office bad_piece_pairs idle "1,x,3,y" eq_refl)
           ["1"] "x" ["3"; "y"] eq_refl); [|reflexivity].
  repeat constructor. discriminate.
Defined.

Lemma connect_failure_witness :
  @db_connect office_no_connection = Raise (DatabaseError "pool exhausted") /\
  @post office_no_connection plain_pairs idle
  = (Raise (DatabaseError "pool exhausted"), idle).
Proof.
  split; [reflexivity|].
  apply (@connect_failure office_no_connection plain_pairs idle "0,0,10,10"
           (DatabaseError "pool exhausted") eq_refl); [|reflexivity].
  split; [vm_compute; lia | cbn; repeat constructor; discriminate].
Defined.

Lemma forward_failures_witness :
  exists params w',
    @build office_behind_gateway plain_pairs idle = (Ok params, w') /\
    @post office_behind_gateway plain_pairs idle = (Raise (KeyError "content-type"), w').
Proof.
  do 2 eexists. split; [vm_compute; reflexivity|].
  apply (proj2 (proj2 (@forward_failures office_behind_gateway plain_pairs idle _ _ eq_refl))
           bare_upstream); reflexivity.
Defined.

Lemma listing_is_prefix_witness :
  exists good rest,
    Dom.getElementsByTagName
      (Element "ComposerTemplates" [] [template_a4; template_a3_no_map]) "ComposerTemplate"
    = good ++ rest /\
    Forall2 (@describes office_incomplete) good
            (@parse_capabilities office_incomplete second_without_map_text) /\
    (rest = [] \/ exists bad rest', rest = bad :: rest' /\ @defective office_incomplete bad).
Proof.
  exact (@listing_is_prefix office_incomplete second_without_map_text _ _ eq_refl a4_nesting).
Defined.

Lemma listed_layout_sound_witness :
  exists capabilities templates t,
    @parseString office_incomplete second_without_map_text = Some capabilities /\
    nesting capabilities templates /\
    In t (Dom.getElementsByTagName templates "ComposerTemplate") /\
    @describes office_incomplete t a4_layout.
Proof.
  exact (@listed_layout_sound office_incomplete second_without_map_text a4_layout
           (or_introl eq_refl)).
Defined.

Lemma default_mark_law_witness :
  layout_default a4_layout = true <->
  layout_name a4_layout = @DEFAULT_LANDREG_LAYOUT office_incomplete.
Proof.
  exact (@default_mark_law office_incomplete second_without_map_text a4_layout
           (or_introl eq_refl)).
Defined.

(** [format=svg] beats [FORMAT=png], though it was sent first. *)
Lemma other_spelling_wins_witness :
  exists params w',
    @build office two_formats_pairs idle = (Ok params, w') /\
    exists k v,
      k <> "FORMAT" /\ @upper office k = "FORMAT" /\
      Dict.get k (Dict.of_pairs two_formats_pairs) = Some v /\
      Dict.get "FORMAT" params = Some (Str v).
Proof.
  do 2 eexists. split; [vm_compute; reflexivity|].
  apply (@other_spelling_wins office two_formats_pairs idle _ _ "FORMAT" "PDF" "format"
           eq_refl).
  - cbn. tauto.
  - cbn. tauto.
  - reflexivity.
  - discriminate.
Defined.

